(** * ixdat: the directory backend ([ixdat/backends/directory_backend.py])

    A shallow embedding of [DirBackend], the store that keeps every table as
    a directory and every row as a metadata file (plus a payload file for
    data objects), together with the path codec [id_from_path] /
    [name_from_path] it is built on.

    Python strings are modelled as [string] (byte strings: the non-ASCII
    digits and blanks that [int] also accepts are outside the model), Python
    [int]s as [Z], exceptions as values of [exn] threaded through a
    state-and-error monad whose state survives a raise, as in Python.

    The state is a world of three parts: the directory tree (each directory
    with its listing, in the order [iterdir] yields it), the heap of Python
    objects (the store itself and the objects handed to it, referred to by
    address, so that an object reached twice is one object), and the log of
    the accesses made to the directory tree.

    Table names are taken to be single path components (no separator
    inside). A file name may hold a separator: it then leads beneath the
    table directory, where the model keeps no tree, and opening it for
    writing fails. [pathlib] is the one of Python 3.6 to 3.13. The
    constants of [ixdat.config] are not needed: the store's attributes are
    whatever [__init__] received.

    Of the reader [ixdat/readers/cinfdata_db.py], which otherwise talks to
    a database, the parts that compute on strings are embedded:
    [get_column_unit], the units [read_ms] takes from it, and the choice of
    the grouping column in [read]. *)

From Stdlib Require Import ZArith Ascii String List Lia DecimalString.
From Stdlib Require DecimalZ.
From stdpp Require Import gmap strings list fin_maps.

Local Open Scope string_scope.
Local Open Scope Z_scope.

(** ** Python string primitives *)

Module PyStr.

(** [s.split(sep)] for a one-character separator: never the empty list. *)
Fixpoint split (sep : ascii) (s : string) : list string :=
  match s with
  | EmptyString => [EmptyString]
  | String c r =>
      if Ascii.eqb c sep then EmptyString :: split sep r
      else match split sep r with
           | [] => [String c EmptyString]
           | t :: ts => String c t :: ts
           end
  end.

(** [sep.join(l)] *)
Definition join (sep : string) (l : list string) : string := String.concat sep l.

(** [l[1:]] *)
Definition drop1 {A} (l : list A) : list A := List.tl l.

(** [l[0]] on the result of a split, which always has a head. *)
Definition head_tok (l : list string) : string := List.hd EmptyString l.

(** Blanks that [int] strips from an ASCII string: tab, line feed,
    vertical tab, form feed, carriage return and the space. The four
    separators 0x1c-0x1f, blanks for [str.strip], are none for [int]. *)
Definition is_space (c : ascii) : bool :=
  let n := nat_of_ascii c in
  ((9 <=? n) && (n <=? 13) || (n =? 32))%nat.

Definition is_digit (c : ascii) : bool :=
  let n := nat_of_ascii c in ((48 <=? n) && (n <=? 57))%nat.

Definition digit_val (c : ascii) : Z := Z.of_nat (nat_of_ascii c) - 48.

Fixpoint lstrip (s : string) : string :=
  match s with
  | String c r => if is_space c then lstrip r else s
  | EmptyString => EmptyString
  end.

Fixpoint rstrip (s : string) : string :=
  match s with
  | EmptyString => EmptyString
  | String c r =>
      match rstrip r with
      | EmptyString => if is_space c then EmptyString else String c EmptyString
      | r' => String c r'
      end
  end.

Definition strip (s : string) : string := rstrip (lstrip s).

(** The digit part of a decimal literal: one or more digits, with single
    underscores allowed between two digits. [seen] tells whether the
    previous character was a digit. *)
Fixpoint digits (acc : Z) (seen : bool) (s : string) : option Z :=
  match s with
  | EmptyString => if seen then Some acc else None
  | String c r =>
      if is_digit c then digits (10 * acc + digit_val c) true r
      else if Ascii.eqb c "_"%char then
        if seen then
          match r with
          | String d _ => if is_digit d then digits acc false r else None
          | EmptyString => None
          end
        else None
      else None
  end.

(** [int(s)] in base ten; [None] stands for [ValueError]. *)
Definition int (s : string) : option Z :=
  match strip s with
  | String "-"%char r => Z.opp <$> digits 0 false r
  | String "+"%char r => digits 0 false r
  | t => digits 0 false t
  end.

(** [str(i)] for an [int]. *)
Definition of_int (i : Z) : string := NilZero.string_of_int (Z.to_int i).

(** [s.rfind(c)] *)
Fixpoint rfind (c : ascii) (s : string) : option nat :=
  match s with
  | EmptyString => None
  | String a r =>
      match rfind c r with
      | Some i => Some (S i)
      | None => if Ascii.eqb a c then Some 0%nat else None
      end
  end.

Fixpoint has_char (c : ascii) (s : string) : bool :=
  match s with
  | EmptyString => false
  | String a r => Ascii.eqb a c || has_char c r
  end.

Definition startswith (p s : string) : bool := String.prefix p s.

Fixpoint endswith (p s : string) : bool :=
  if String.eqb p s then true
  else match s with
       | EmptyString => false
       | String _ r => endswith p r
       end.

End PyStr.

(** ** pathlib: the final component of a path *)

Module PyPath.

(** Position of the dot that starts the suffix: the last dot of the name,
    when it is neither the first nor the last character. *)
Definition suffix_dot (name : string) : option nat :=
  match PyStr.rfind "."%char name with
  | Some i =>
      if ((0 <? i) && (i <? String.length name - 1))%nat then Some i else None
  | None => None
  end.

(** [PurePath.suffix] *)
Definition suffix (name : string) : string :=
  match suffix_dot name with
  | Some i => String.substring i (String.length name - i) name
  | None => EmptyString
  end.

(** [PurePath.stem] *)
Definition stem (name : string) : string :=
  match suffix_dot name with
  | Some i => String.substring 0 i name
  | None => name
  end.

End PyPath.

(** A path as the backend meets it: a directory and the name of an entry
    in it ([folder / file_name], or an item of [folder.iterdir()]). *)
Record Path := mkPath { parent : string; pname : string }.

(** ** The path codec *)

(** [id_from_path]: the [ValueError] of [int] is caught and turned into
    [None]. *)
Definition id_from_path (p : Path) : option Z :=
  PyStr.int (PyStr.head_tok (PyStr.split "_"%char (PyPath.stem (pname p)))).

(** [name_from_path]: the tokens after the first, joined by the EMPTY
    string. *)
Definition name_from_path (p : Path) : string :=
  PyStr.join EmptyString (PyStr.drop1 (PyStr.split "_"%char (PyPath.stem (pname p)))).


(** ** Python values and exceptions *)

Inductive pyval :=
  | VNone
  | VInt (i : Z)
  | VStr (s : string)
  | VArr (a : list Z).

Inductive exn :=
  | ValueError | TypeError | KeyError | AttributeError | EOFError
  | FileNotFoundError | NotADirectoryError | IsADirectoryError.

#[global] Instance pyval_eq_dec : EqDecision pyval.
Proof. solve_decision. Defined.
#[global] Instance exn_eq_dec : EqDecision exn.
Proof. solve_decision. Defined.

Inductive Res (A : Type) :=
  | Ok (a : A)
  | Raise (e : exn).
Arguments Ok {A} a.
Arguments Raise {A} e.

(** [try: r  except e: pass] on a pure computation: [Ok None] when the
    exception [e], and only [e], was caught. *)
Definition except_pass {A} (e : exn) (r : Res A) : Res (option A) :=
  match r with
  | Ok a => Ok (Some a)
  | Raise e' => if decide (e' = e) then Ok None else Raise e'
  end.

(** [int(s)] with its [ValueError]. *)
Definition int_r (s : string) : Res Z :=
  match PyStr.int s with
  | Some i => Ok i
  | None => Raise ValueError
  end.

(** [max(l)]: a [ValueError] on the empty sequence. *)
Definition py_max (l : list Z) : Res Z :=
  match l with
  | [] => Raise ValueError
  | x :: r => Ok (fold_left Z.max r x)
  end.

(** [d[k]] *)
Definition getitem (d : gmap string pyval) (k : string) : Res pyval :=
  match d !! k with
  | Some v => Ok v
  | None => Raise KeyError
  end.

(** What [json.dump] accepts among the values of the model: everything
    but a numpy array. *)
Definition json_ok (v : pyval) : bool :=
  match v with
  | VArr _ => false
  | _ => true
  end.

Definition json_serializable (d : gmap string pyval) : bool :=
  forallb (fun kv => json_ok kv.2) (map_to_list d).

(** ** The file system *)

Inductive Content :=
  | Json (d : gmap string pyval)   (* a document written by [json.dump] *)
  | Npy (v : pyval)                (* a blob written by [np.save] *)
  | Partial                        (* what a failed [json.dump] leaves *)
  | Raw (bytes : string).          (* anything else *)

Inductive Entry :=
  | File (name : string) (c : Content)
  | Dir (name : string).

Definition ename (e : Entry) : string :=
  match e with
  | File n _ => n
  | Dir n => n
  end.

(** [file.is_dir()] *)
Definition is_dir (e : Entry) : bool :=
  match e with
  | Dir _ => true
  | File _ _ => false
  end.

(** [a / b] on path strings, for a single-component [b]. *)
Definition path_join (a b : string) : string := a +:+ "/" +:+ b.

Definition path_str (p : Path) : string := path_join (parent p) (pname p).

Arguments path_join : simpl never.
Arguments path_str : simpl never.

Definition find_entry (n : string) (l : list Entry) : option Entry :=
  List.find (fun e => String.eqb (ename e) n) l.

(** Writing a regular file into a listing: an entry of that name is
    replaced where it stands, a new one goes to the end. *)
Fixpoint put_file (n : string) (c : Content) (l : list Entry) : list Entry :=
  match l with
  | [] => [File n c]
  | e :: r => if String.eqb (ename e) n then File n c :: r else e :: put_file n c r
  end.

(** The accesses the backend makes to the directory tree: existence
    tests, listings, creations, opens, saves, loads and the two calls of
    the comparison. The [stat] behind [is_dir], made on an entry that was
    just listed, is not logged. *)
Inductive Event :=
  | EvExists (p : Path)
  | EvMkdir (p : Path)
  | EvIterdir (p : Path)
  | EvOpenWrite (p : Path)
  | EvOpenRead (p : Path)
  | EvNpSave (p : Path)
  | EvNpLoad (p : Path)
  | EvResolve (d : string)
  | EvLstat (d : string).

Definition is_write (ev : Event) : bool :=
  match ev with
  | EvMkdir _ | EvOpenWrite _ | EvNpSave _ => true
  | _ => false
  end.

(** ** Objects *)

(** A [DirBackend] instance: the three attributes set by [__init__]. *)
Record DirBackend := mkBackend {
  directory : string;
  suffix : string;
  data_suffix : string }.

(** An object handed to the store. [table_name = None] and [data = None]
    stand for a missing attribute; [id], [backend] and [backend_name] are
    [None] for Python's [None]. References are heap addresses. *)
Record Saveable := mkSaveable {
  type_str : string;
  table_name : option string;
  name : pyval;
  data_objects : list nat;
  data : option pyval;
  id : option Z;
  backend : option nat;
  backend_name : option string }.

Inductive Cell :=
  | CBackend (b : DirBackend)
  | CObj (o : Saveable).

Definition set_id (i : option Z) (o : Saveable) : Saveable :=
  mkSaveable (type_str o) (table_name o) (name o) (data_objects o) (data o)
             i (backend o) (backend_name o).

Definition set_backend (b : option nat) (o : Saveable) : Saveable :=
  mkSaveable (type_str o) (table_name o) (name o) (data_objects o) (data o)
             (id o) b (backend_name o).

Definition set_backend_name (n : option string) (o : Saveable) : Saveable :=
  mkSaveable (type_str o) (table_name o) (name o) (data_objects o) (data o)
             (id o) (backend o) n.

(** A class as [open] uses it. *)
Record Class := mkClass {
  cls_table_name : string;
  from_dict : gmap string pyval -> Saveable }.

(** ** The world and the monad *)

Record World := mkWorld {
  fs : gmap string (list Entry);   (* the directories and their listings *)
  heap : gmap nat Cell;            (* the live Python objects *)
  log : list Event }.              (* file-system accesses, oldest first *)

Definition M (A : Type) : Type := World -> Res A * World.

Definition ret {A} (a : A) : M A := fun w => (Ok a, w).
Definition raise {A} (e : exn) : M A := fun w => (Raise e, w).
Definition bind {A B} (m : M A) (k : A -> M B) : M B :=
  fun w => match m w with
           | (Ok a, w') => k a w'
           | (Raise e, w') => (Raise e, w')
           end.
Definition lift {A} (r : Res A) : M A := fun w => (r, w).

(** [try: m  except e: h] *)
Definition try_except {A} (m : M A) (e : exn) (h : M A) : M A :=
  fun w => match m w with
           | (Raise e', w') => if decide (e' = e) then h w' else (Raise e', w')
           | r => r
           end.

#[global] Instance M_bind : MBind M := fun A B k m => bind m k.
#[global] Instance M_ret : MRet M := fun A a => ret a.

Definition get_fs : M (gmap string (list Entry)) := fun w => (Ok (fs w), w).
Definition get_heap : M (gmap nat Cell) := fun w => (Ok (heap w), w).
Definition emit (ev : Event) : M unit :=
  fun w => (Ok tt, mkWorld (fs w) (heap w) (log w ++ [ev])%list).
Definition put_fs (f : gmap string (list Entry)) : M unit :=
  fun w => (Ok tt, mkWorld f (heap w) (log w)).
Definition put_heap (h : gmap nat Cell) : M unit :=
  fun w => (Ok tt, mkWorld (fs w) h (log w)).

(** The world [w] with the accesses [evs] logged after its own. *)
Definition logged (w : World) (evs : list Event) : World :=
  mkWorld (fs w) (heap w) (log w ++ evs)%list.

(** [for x in l: body(x)] *)
Fixpoint for_each {A} (body : A -> M unit) (l : list A) : M unit :=
  match l with
  | [] => ret tt
  | x :: r => _ ← body x; for_each body r
  end.

(** *** File-system primitives *)

Definition is_file_in (n : string) (l : list Entry) : bool :=
  match find_entry n l with
  | Some (File _ _) => true
  | _ => false
  end.

(** [p.exists()] *)
Definition fs_exists (p : Path) : M bool :=
  _ ← emit (EvExists p);
  f ← get_fs;
  ret (match f !! path_str p with
       | Some _ => true
       | None => match f !! parent p with
                 | Some l => is_file_in (pname p) l
                 | None => false
                 end
       end).

(** [p.mkdir()], called on a path that does not exist. *)
Definition fs_mkdir (p : Path) : M unit :=
  _ ← emit (EvMkdir p);
  f ← get_fs;
  match f !! parent p with
  | None => raise FileNotFoundError
  | Some l => put_fs (<[path_str p := []]> (<[parent p := (l ++ [Dir (pname p)])%list]> f))
  end.

(** [p.iterdir()], in the order of the listing. *)
Definition fs_iterdir (p : Path) : M (list Entry) :=
  _ ← emit (EvIterdir p);
  f ← get_fs;
  match f !! path_str p with
  | Some l => ret l
  | None =>
      match f !! parent p with
      | Some l => if is_file_in (pname p) l then raise NotADirectoryError
                  else raise FileNotFoundError
      | None => raise FileNotFoundError
      end
  end.

(** Opening for writing a file whose name holds a separator: the name
    then leads through a directory beneath [parent p]. The tree beneath a
    table directory is not part of the model, so the open fails, as it does
    in the code whenever that directory is not there: with
    [NotADirectoryError] when the first component is a regular file of the
    listing, with [FileNotFoundError] otherwise. *)
Definition open_beneath (n : string) (l : list Entry) : exn :=
  if is_file_in (PyStr.head_tok (PyStr.split "/"%char n)) l
  then NotADirectoryError
  else FileNotFoundError.

(** [with open(p, "w") as f: json.dump(d, f)] *)
Definition write_json (p : Path) (d : gmap string pyval) : M unit :=
  _ ← emit (EvOpenWrite p);
  f ← get_fs;
  match f !! parent p with
  | None => raise FileNotFoundError
  | Some l =>
      if PyStr.has_char "/"%char (pname p) then raise (open_beneath (pname p) l)
      else
      match find_entry (pname p) l with
      | Some (Dir _) => raise IsADirectoryError
      | _ =>
          if json_serializable d
          then put_fs (<[parent p := put_file (pname p) (Json d) l]> f)
          else _ ← put_fs (<[parent p := put_file (pname p) Partial l]> f);
               raise TypeError
      end
  end.

(** [with open(p, "r") as f: json.load(f)]; [p] may be [None]. *)
Definition read_json (p : option Path) : M (gmap string pyval) :=
  match p with
  | None => raise TypeError
  | Some p =>
      _ ← emit (EvOpenRead p);
      f ← get_fs;
      match f !! parent p with
      | None => raise FileNotFoundError
      | Some l =>
          match find_entry (pname p) l with
          | None => raise FileNotFoundError
          | Some (Dir _) => raise IsADirectoryError
          | Some (File _ (Json d)) => ret d
          | Some (File _ _) => raise ValueError
          end
      end
  end.

(** The name [np.save] writes to: [.npy] is appended unless already there. *)
Definition npy_name (n : string) : string :=
  if PyStr.endswith ".npy" n then n else n +:+ ".npy".

(** [np.save(p, v)] *)
Definition np_save (p : Path) (v : pyval) : M unit :=
  let q := mkPath (parent p) (npy_name (pname p)) in
  _ ← emit (EvNpSave q);
  f ← get_fs;
  match f !! parent q with
  | None => raise FileNotFoundError
  | Some l =>
      if PyStr.has_char "/"%char (pname q) then raise (open_beneath (pname q) l)
      else
      match find_entry (pname q) l with
      | Some (Dir _) => raise IsADirectoryError
      | _ => put_fs (<[parent q := put_file (pname q) (Npy v) l]> f)
      end
  end.

(** [np.load(p)]: an empty file gives [EOFError]; pickled blobs (here:
    [None]) and files that are no array are refused with [ValueError] (a
    JSON document, also a partial one, starts with a brace; other bytes are
    taken not to start like an array or an archive). *)
Definition np_load (p : Path) : M pyval :=
  _ ← emit (EvNpLoad p);
  f ← get_fs;
  match f !! parent p with
  | None => raise FileNotFoundError
  | Some l =>
      match find_entry (pname p) l with
      | None => raise FileNotFoundError
      | Some (Dir _) => raise IsADirectoryError
      | Some (File _ (Npy VNone)) => raise ValueError
      | Some (File _ (Npy v)) => ret v
      | Some (File _ (Raw EmptyString)) => raise EOFError
      | Some (File _ _) => raise ValueError
      end
  end.

(** [PurePath.with_suffix] *)
Definition with_suffix (p : Path) (sfx : string) : Res Path :=
  if PyStr.has_char "/"%char sfx then Raise ValueError
  else if (negb (String.eqb sfx "") && negb (PyStr.startswith "." sfx))
          || String.eqb sfx "." then Raise ValueError
  else if String.eqb (pname p) "" then Raise ValueError
  else Ok (mkPath (parent p) (PyPath.stem (pname p) +:+ sfx)).

(** *** Heap primitives *)

Definition get_backend (self : nat) : M DirBackend :=
  h ← get_heap;
  match h !! self with
  | Some (CBackend b) => ret b
  | _ => raise AttributeError
  end.

(** Reading an attribute of a saveable object: anything else at that
    address has none of them. *)
Definition get_obj (a : nat) : M Saveable :=
  h ← get_heap;
  match h !! a with
  | Some (CObj o) => ret o
  | _ => raise AttributeError
  end.

(** [obj.attr = v] *)
Definition update_obj (a : nat) (f : Saveable -> Saveable) : M unit :=
  o ← get_obj a;
  h ← get_heap;
  put_heap (<[a := CObj (f o)]> h).

(** A newly constructed object gets an address not in use. *)
Definition alloc (c : Cell) : M nat :=
  h ← get_heap;
  let a := fresh (dom h) in
  _ ← put_heap (<[a := c]> h);
  ret a.

(** [hasattr(obj, "data")] *)
Definition hasattr_data (a : nat) : M bool :=
  h ← get_heap;
  ret (match h !! a with
       | Some (CObj o) => bool_decide (is_Some (data o))
       | _ => false
       end).

(** ** The backend *)

(** [str(id)] of the builtin function [id]. *)
Definition BUILTIN_ID : string := "<built-in function id>".

(** The leading token of a file name, as [get_id_list] reads it. *)
Definition name_token (e : Entry) : string :=
  PyStr.head_tok (PyStr.split "_"%char (ename e)).

(** The body of the loop of [get_id_list] over the listing: the only
    exception excused is [TypeError]. *)
Fixpoint id_list_loop (files : list Entry) (id_list : list Z) : Res (list Z) :=
  match files with
  | [] => Ok id_list
  | file :: rest =>
      if negb (is_dir file) then
        match except_pass TypeError
                (int_r (PyStr.head_tok (PyStr.split "_"%char (ename file)))) with
        | Ok (Some i) => id_list_loop rest (id_list ++ [i])%list
        | Ok None => id_list_loop rest id_list
        | Raise e => Raise e
        end
      else id_list_loop rest id_list
  end.

(** The filter of the generator in [get_path_to_row]:
    [id_from_path(p) == i and p.suffix == self.suffix]. The identifier
    asked for may be [None], which equals the [None] that [id_from_path]
    returns for a name it cannot decode. *)
Definition row_matches (b : DirBackend) (i : option Z) (p : Path) : bool :=
  bool_decide (id_from_path p = i) && String.eqb (PyPath.suffix (pname p)) (suffix b).

(** What the backend takes from outside: [as_dict] belongs to the object
    model (it reads the object, and whatever the object refers to, in the
    current heap), numpy renders its arrays, the operating system resolves
    paths and reports their status. *)
Record Extern := mkExtern {
  as_dict : gmap nat Cell -> nat -> gmap string pyval;
  array_str : list Z -> string;
  resolve : string -> string;
  stat_of : string -> nat }.

Section Backend.

Variable X : Extern.

(** [f"{v}"] *)
Definition fmt (v : pyval) : string :=
  match v with
  | VNone => "None"
  | VInt i => PyStr.of_int i
  | VStr s => s
  | VArr a => array_str X a
  end.

Definition fmt_id (i : option Z) : string :=
  match i with
  | Some z => PyStr.of_int z
  | None => "None"
  end.

(** [DirBackend.name] *)
Definition backend_name_of (b : DirBackend) : string :=
  "DirBackend(" +:+ directory b +:+ ")".

Definition fs_resolve (d : string) : M string :=
  _ ← emit (EvResolve d); ret (resolve X d).

(** [d.lstat()] *)
Definition fs_lstat (d : string) : M nat :=
  _ ← emit (EvLstat d);
  f ← get_fs;
  match f !! d with
  | Some _ => ret (stat_of X d)
  | None => raise FileNotFoundError
  end.

(** [x == self] where [self] is a [DirBackend]: [DirBackend.__eq__] with
    the store as [other] when [x] is a backend too; for any other [x] the
    comparison falls back on [self.__eq__(x)], which finds no [directory]
    attribute. *)
Definition backend_eq (x : option nat) (self : nat) : M bool :=
  match x with
  | None => ret false
  | Some a =>
      h ← get_heap;
      match h !! a with
      | Some (CBackend xb) =>
          if decide (self = a) then ret true
          else
            sb ← get_backend self;
            r1 ← fs_resolve (directory sb);
            r2 ← fs_resolve (directory xb);
            if negb (String.eqb r1 r2) then ret false
            else
              l1 ← fs_lstat (directory sb);
              l2 ← fs_lstat (directory xb);
              ret (bool_decide (l1 = l2))
      | _ => ret false
      end
  end.

(** Identifiers are handed to the backend as [option Z]: an [int], or
    [None] for an object that has none yet. *)
Definition get_id_list (self : nat) (table : string) : M (list Z) :=
  b ← get_backend self;
  let folder := mkPath (directory b) table in
  files ← fs_iterdir folder;
  lift (id_list_loop files []).

Definition get_next_available_id (self : nat) (table : string) : M Z :=
  ids ← get_id_list self table;
  m ← lift (py_max ids);
  ret (m + 1).

Definition contains (self : nat) (table : string) (i : option Z) : M bool :=
  ids ← get_id_list self table;
  ret (match i with
       | Some z => bool_decide (z ∈ ids)
       | None => false
       end).

(** [next] takes the first path that passes the filter; the
    [StopIteration] of an exhausted generator is caught and turned into
    [None]. *)
Definition get_path_to_row (self : nat) (table : string) (i : option Z)
  : M (option Path) :=
  b ← get_backend self;
  let folder := mkPath (directory b) table in
  files ← fs_iterdir folder;
  ret (List.find (row_matches b i)
         (List.map (fun e => mkPath (path_str folder) (ename e)) files)).

Definition add_row (self : nat) (obj_as_dict : gmap string pyval) (table : string)
  : M Z :=
  b ← get_backend self;
  let folder := mkPath (directory b) table in
  ex ← fs_exists folder;
  _ ← (if negb ex then fs_mkdir folder else ret tt);
  i ← get_next_available_id self table;
  name ← lift (getitem obj_as_dict "name");
  b ← get_backend self;
  let file_name := BUILTIN_ID +:+ "_" +:+ fmt name +:+ "." +:+ suffix b in
  _ ← write_json (mkPath (path_str folder) file_name) obj_as_dict;
  ret i.

Definition open_serialization (self : nat) (table : string) (i : option Z)
  : M (gmap string pyval) :=
  path_to_row ← get_path_to_row self table i;
  read_json path_to_row.

Definition open (self : nat) (cls : Class) (i : option Z) : M nat :=
  let table := cls_table_name cls in
  obj_as_dict ← open_serialization self table i;
  obj ← alloc (CObj (from_dict cls obj_as_dict));
  _ ← update_obj obj (set_backend (Some self));
  ret obj.

Definition load_obj_data (self obj : nat) : M pyval :=
  has ← hasattr_data obj;
  if negb has then ret VNone
  else
    o ← get_obj obj;
    match table_name o with
    | None => raise AttributeError
    | Some table =>
        path_to_row ← get_path_to_row self table (id o);
        try_except
          (match path_to_row with
           | None => raise AttributeError
           | Some p =>
               b ← get_backend self;
               q ← lift (with_suffix p (data_suffix b));
               np_load q
           end)
          FileNotFoundError (ret VNone)
    end.

Definition save_data_obj (self data_obj : nat) : M (option Z) :=
  o ← get_obj data_obj;
  match table_name o with
  | None => raise AttributeError
  | Some table =>
      same ← backend_eq (backend o) self;
      found ← (if (same : bool) then contains self table (id o) else ret false);
      if (found : bool) then ret (id o)
      else
        h ← get_heap;
        let obj_as_dict := as_dict X h data_obj in
        data ← lift (getitem obj_as_dict "data");
        let obj_as_dict := <["data" := VNone]> obj_as_dict in
        i ← add_row self obj_as_dict table;
        _ ← update_obj data_obj (set_id (Some i));
        b ← get_backend self;
        let folder := mkPath (directory b) table in
        _ ← update_obj data_obj (set_backend (Some self));
        o ← get_obj data_obj;
        b ← get_backend self;
        let data_file_name :=
          fmt_id (id o) +:+ "_" +:+ fmt (name o) +:+ "." +:+ data_suffix b in
        _ ← np_save (mkPath (path_str folder) data_file_name) data;
        o ← get_obj data_obj;
        ret (id o)
  end.

Definition save (self obj : nat) : M (option Z) :=
  o ← get_obj obj;
  _ ← (if negb (bool_decide (data_objects o = []))
       then for_each (fun d => _ ← save_data_obj self d; ret tt) (data_objects o)
       else ret tt);
  o ← get_obj obj;
  let table := match table_name o with
               | Some t => t
               | None => type_str o
               end in
  h ← get_heap;
  let obj_as_dict := as_dict X h obj in
  i ← add_row self obj_as_dict table;
  _ ← update_obj obj (set_id (Some i));
  b ← get_backend self;
  _ ← update_obj obj (set_backend_name (Some (backend_name_of b)));
  o ← get_obj obj;
  ret (id o).

End Backend.

(** ** Relations between the world before and after an operation *)

(** The three assignments the backend makes to an object: [obj.id = i],
    [obj.backend = self] and [obj.backend_name = n]. *)
Inductive binding_update : (Saveable -> Saveable) -> Prop :=
  | bu_id (i : Z) : binding_update (set_id (Some i))
  | bu_backend (a : nat) : binding_update (set_backend (Some a))
  | bu_backend_name (n : string) : binding_update (set_backend_name (Some n)).

(** A relation on worlds that every step on the directory tree respects:
    logging an access and changing the tree. *)
Class FsFrame (R : relation World) := {
  fsframe_preorder :: PreOrder R;
  frame_emit w ev : R w (mkWorld (fs w) (heap w) (log w ++ [ev])%list);
  frame_fs w f : R w (mkWorld f (heap w) (log w)) }.

(** A relation that the steps on the heap respect as well: one of the
    three assignments above, and constructing a new object. *)
Class Frame (R : relation World) := {
  frame_fsframe :: FsFrame R;
  frame_update w a o f :
    heap w !! a = Some (CObj o) -> binding_update f ->
    R w (mkWorld (fs w) (<[a := CObj (f o)]> (heap w)) (log w));
  frame_alloc w c :
    R w (mkWorld (fs w) (<[fresh (dom (heap w)) := c]> (heap w)) (log w)) }.

(** [m] respects [R], whether it returns or raises. *)
Definition stable (R : relation World) {A} (m : M A) : Prop :=
  forall w, R w (m w).2.

(** Backend instances stay what they are. *)
Definition keeps_backends (w w' : World) : Prop :=
  forall a b, heap w !! a = Some (CBackend b) -> heap w' !! a = Some (CBackend b).

(** [has_id h a]: the object at [a] holds an integer identifier. *)
Definition has_id (h : gmap nat Cell) (a : nat) : Prop :=
  exists o, h !! a = Some (CObj o) /\ is_Some (id o).

Definition keeps_ids (w w' : World) : Prop :=
  forall a, has_id (heap w) a -> has_id (heap w') a.

(** The heap is left as it is. *)
Definition heap_same (w w' : World) : Prop := heap w' = heap w.

(** The log only grows. *)
Definition log_grows (w w' : World) : Prop := log w `prefix_of` log w'.

Definition no_write (evs : list Event) : bool :=
  forallb (fun ev => negb (is_write ev)) evs.

(** [m] only reads: it leaves the directory tree and the heap as they
    are, logs no write, and its result and the accesses it logs are a
    function of the directory tree and the heap (not of the log). *)
Definition reads_only {A} (m : M A) : Prop :=
  forall f h, exists r evs,
    no_write evs = true /\
    forall l, m (mkWorld f h l) = (r, mkWorld f h (l ++ evs)%list).

(** The children of [save] saved one after the other, each from the world
    the previous one left. *)
Inductive saved_in_order (X : Extern) (self : nat) : list nat -> World -> World -> Prop :=
  | sio_nil w : saved_in_order X self [] w w
  | sio_cons d ds w w1 w2 r :
      save_data_obj X self d w = (Ok r, w1) ->
      saved_in_order X self ds w1 w2 ->
      saved_in_order X self (d :: ds) w w2.

(** What [save] does once the data objects are saved: lines 41-48. *)
Definition save_own_row (X : Extern) (self obj : nat) : M (option Z) :=
  o ← get_obj obj;
  let table := match table_name o with
               | Some t => t
               | None => type_str o
               end in
  h ← get_heap;
  let obj_as_dict := as_dict X h obj in
  i ← add_row X self obj_as_dict table;
  _ ← update_obj obj (set_id (Some i));
  b ← get_backend self;
  _ ← update_obj obj (set_backend_name (Some (backend_name_of b)));
  o ← get_obj obj;
  ret (id o).

(** ** Declarative readings of the table operations *)

(** What [p.exists()] answers on a directory tree. *)
Definition path_exists (f : gmap string (list Entry)) (p : Path) : bool :=
  match f !! path_str p with
  | Some _ => true
  | None => match f !! parent p with
            | Some l => is_file_in (pname p) l
            | None => false
            end
  end.

(** The identifier a directory entry stands for in [get_id_list]: none
    for a sub-directory, and none for a regular file whose leading token
    is no integer. *)
Definition entry_id (e : Entry) : option Z :=
  if is_dir e then None else PyStr.int (name_token e).

(** Every regular file of the listing has an integer as leading token. *)
Definition all_decodable (files : list Entry) : bool :=
  forallb (fun e => is_dir e || bool_decide (is_Some (PyStr.int (name_token e)))) files.

(** The identifier [get_next_available_id] computes from a listing. *)
Definition next_id_of (files : list Entry) : Res Z :=
  if all_decodable files
  then match py_max (omap entry_id files) with
       | Ok m => Ok (m + 1)
       | Raise e => Raise e
       end
  else Raise ValueError.

(** The name of the file [add_row] writes. *)
Definition row_file_name (X : Extern) (b : DirBackend) (nm : pyval) : string :=
  BUILTIN_ID +:+ "_" +:+ fmt X nm +:+ "." +:+ suffix b.

(** The name of the file [save_data_obj] hands to [np.save]. *)
Definition data_file_name (X : Extern) (b : DirBackend) (i : Z) (nm : pyval) : string :=
  fmt_id (Some i) +:+ "_" +:+ fmt X nm +:+ "." +:+ data_suffix b.

(** ** The reader of cinfdata columns ([ixdat/readers/cinfdata_db.py]) *)

(** [get_column_unit]: the unit name that goes with a column name;
    [None] when no rule applies. *)
Definition get_column_unit (column_name : string) : option string :=
  if PyStr.startswith "M" column_name && PyStr.endswith "-y" column_name
  then Some "A"
  else if PyStr.startswith "M" column_name && PyStr.endswith "-x" column_name
  then Some "s"
  else if PyStr.startswith "Reactor" column_name
          && PyStr.endswith "pressure-y" column_name
  then Some "bar"
  else if negb (PyStr.startswith "Reactor" column_name)
          && PyStr.endswith "pressure-y" column_name
  then Some "mbar"
  else if PyStr.endswith "temperature-y" column_name
  then Some "celcius"
  else if PyStr.startswith "Flow" column_name
  then Some "ml/min"
  else None.

(** [u or d] for a unit name that may be [None]. *)
Definition unit_or (u : option string) (d : string) : string :=
  match u with
  | None => d
  | Some EmptyString => d
  | Some s => s
  end.

(** The units [read_ms] gives the two series of the column labelled
    [column_name]: [get_column_unit(column_name + "-x") or "s"] for the
    time series, [get_column_unit(column_name + "-y")] for the values. *)
Definition tseries_unit (column_name : string) : string :=
  unit_or (get_column_unit (column_name +:+ "-x")) "s".

Definition vseries_unit (column_name : string) : option string :=
  get_column_unit (column_name +:+ "-y").

(** The truth value of a keyword argument that is a string or [None]:
    [None] and the empty string are false. *)
Definition truthy (v : option string) : bool :=
  match v with
  | Some (String _ _) => true
  | _ => false
  end.

(** What [read] has settled when it goes on to connect: the grouping
    column, the token (an attribute that [__init__] does not create:
    [None] stands for its absence) and whether the warning was issued
    (under the default filter, which does not turn it into an
    exception). *)
Record Grouping := mkGrouping {
  grouping_column : option string;
  token : option (option string);
  warned : bool
}.

(** The choice of the grouping column in [read], from the keyword
    arguments [group], [timestamp] and [comment]; [token0] is the token
    attribute the reader had before. *)
Definition read_grouping (group timestamp comment : option string)
    (token0 : option (option string)) : Grouping :=
  if negb (truthy group) then
    if truthy timestamp && negb (truthy comment)
    then mkGrouping (Some "time") (Some timestamp) false
    else if truthy comment && negb (truthy timestamp)
    then mkGrouping (Some "comment") (Some comment) false
    else mkGrouping (Some "time") (Some timestamp) true
  else mkGrouping group token0 false.

(** The last character of a string. *)
Fixpoint last_char (s : string) : option ascii :=
  match s with
  | EmptyString => None
  | String c EmptyString => Some c
  | String _ r => last_char r
  end.

(** ** Character classes of file-name tokens *)


(** Characters that are neither blanks, underscores nor dots. *)
Definition plain_char (c : ascii) : bool :=
  negb (PyStr.is_space c) && negb (Ascii.eqb c "_") && negb (Ascii.eqb c ".").

Fixpoint plain (s : string) : bool :=
  match s with
  | EmptyString => true
  | String c r => plain_char c && plain r
  end.

(** ** A small store for the examples *)

Module Demo.

(** An object model whose [as_dict] lists the name and the data. *)
Definition as_dict (h : gmap nat Cell) (a : nat) : gmap string pyval :=
  match h !! a with
  | Some (CObj o) => {[ "name" := name o; "data" := default VNone (data o) ]}
  | _ => ∅
  end.

Definition extern : Extern :=
  mkExtern as_dict
           (fun a => "[" +:+ PyStr.join " " (PyStr.of_int <$> a) +:+ "]")
           (fun d => d)
           String.length.

(** The store lives at address 0; objects from address 1 on. *)
Definition store : DirBackend := mkBackend "root" ".ix" ".npy".

(** The same store with suffixes written without their dot. *)
Definition store_nodot : DirBackend := mkBackend "root" "ix" "npy".

Definition obj (n table : string) (d : option pyval) : Saveable :=
  mkSaveable "<class 'ixdat.Obj'>" (Some table) (VStr n) [] d None None None.

Definition row (n : string) : Entry := File n (Json {[ "name" := VStr n ]}).

(** One table, [series], with the single row [0_alpha]; one unsaved
    object [beta] without a [data] attribute. *)
Definition one_row : World :=
  mkWorld {[ "root" := [Dir "series"]; "root/series" := [row "0_alpha.ix"] ]}
          {[ 0%nat := CBackend store; 1%nat := CObj (obj "beta" "series" None) ]}
          [].

Definition one_row_nodot : World :=
  mkWorld (fs one_row) (<[0%nat := CBackend store_nodot]> (heap one_row)) [].

(** The same table; the unsaved object [beta] carries data. *)
Definition unsaved_data : World :=
  mkWorld (fs one_row)
          {[ 0%nat := CBackend store;
             1%nat := CObj (obj "beta" "series" (Some (VArr [1; 2]))) ]}
          [].

(** No table directory yet. *)
Definition no_table : World :=
  mkWorld {[ "root" := [] ]} (heap unsaved_data) [].

(** A table that holds the payload [3_x.npy] and no metadata file. *)
Definition payload_only : World :=
  mkWorld {[ "root" := [Dir "series"];
             "root/series" := [File "3_x.npy" (Npy (VArr [7]))] ]}
          {[ 0%nat := CBackend store ]} [].

(** A data object bound to the store under identifier 3, and the table
    holding its two files. *)
Definition bound_obj : Saveable :=
  mkSaveable "<class 'ixdat.Obj'>" (Some "series") (VStr "x") []
             (Some (VArr [7])) (Some 3) (Some 0%nat) None.

Definition bound : World :=
  mkWorld {[ "root" := [Dir "series"];
             "root/series" := [row "3_x.ix"; File "3_x.npy" (Npy (VArr [7]))] ]}
          {[ 0%nat := CBackend store; 1%nat := CObj bound_obj ]} [].

(** A class of data objects, and a table that holds the two files of the
    row 3 of that class; no object is loaded yet. *)
Definition series_cls : Class :=
  mkClass "series"
    (fun d => mkSaveable "<class 'ixdat.Obj'>" (Some "series")
                (default VNone (d !! "name")) [] (Some VNone)
                (match d !! "id" with
                 | Some (VInt i) => Some i
                 | _ => None
                 end)
                None None).

Definition stored : World :=
  mkWorld {[ "root" := [Dir "series"];
             "root/series" :=
               [File "3_x.ix" (Json {[ "name" := VStr "x"; "id" := VInt 3 ]});
                File "3_x.npy" (Npy (VArr [7]))] ]}
          {[ 0%nat := CBackend store ]} [].

(** A parent at address 1 that owns the data objects at 2 and 3, each in a
    table of its own. *)
Definition parent_obj : Saveable :=
  mkSaveable "<class 'ixdat.Measurement'>" (Some "measurement") (VStr "m")
             [2%nat; 3%nat] None None None None.

Definition family : World :=
  mkWorld {[ "root" := [Dir "measurement"; Dir "ta"; Dir "tb"];
             "root/measurement" := [row "0_old.ix"];
             "root/ta" := [row "4_a.ix"];
             "root/tb" := [row "9_b.ix"] ]}
          {[ 0%nat := CBackend store;
             1%nat := CObj parent_obj;
             2%nat := CObj (obj "t" "ta" (Some (VArr [1])));
             3%nat := CObj (obj "v" "tb" (Some (VArr [2]))) ]}
          [].

(** An object model whose [as_dict] lists the name only. *)
Definition as_dict_name_only (h : gmap nat Cell) (a : nat) : gmap string pyval :=
  match h !! a with
  | Some (CObj o) => {[ "name" := name o ]}
  | _ => ∅
  end.

Definition extern_name_only : Extern :=
  mkExtern as_dict_name_only (array_str extern) (resolve extern) (stat_of extern).

(** Mappings handed to [add_row]. *)
Definition beta_dict : gmap string pyval := {[ "name" := VStr "beta" ]}.


(** [one_row_nodot] after [add_row] of [beta_dict]. *)
Definition one_row_added : World :=
  (add_row extern 0 beta_dict "series" one_row_nodot).2.

(** [unsaved_data] after [save_data_obj] of its object. *)
Definition data_saved : World := (save_data_obj extern 0 1 unsaved_data).2.

(** [stored] after [open] of the row 3. *)
Definition opened : World := (open 0 series_cls (Some 3) stored).2.

(** [unsaved_data] after a [save] of its object, which fails. *)
Definition save_failed : World := (save extern 0 1 unsaved_data).2.

(** A second store instance, at address 2, on the directory of the first. *)
Definition two_stores : World :=
  mkWorld (fs one_row)
          {[ 0%nat := CBackend store; 2%nat := CBackend store_nodot ]} [].

(** [family] after [save] of the parent. *)
Definition family_saved : Res (option Z) * World := save extern 0 1 family.

(** [one_row] after [save] of the object at address 1. *)
Definition one_row_saved : World := (save extern 0 1 one_row).2.

End Demo.

(** * Theory *)

(** ** The monad *)

Lemma bind_run {A B} (m : M A) (k : A -> M B) w :
  (m ≫= k) w = match m w with
               | (Ok a, w') => k a w'
               | (Raise e, w') => (Raise e, w')
               end.
Proof. reflexivity. Qed.

Lemma bind_ok {A B} (m : M A) (k : A -> M B) w a w' :
  m w = (Ok a, w') -> (m ≫= k) w = k a w'.
Proof. intros H. rewrite bind_run, H. reflexivity. Qed.

Lemma bind_raise {A B} (m : M A) (k : A -> M B) w e w' :
  m w = (Raise e, w') -> (m ≫= k) w = (Raise e, w').
Proof. intros H. rewrite bind_run, H. reflexivity. Qed.

Section Stable.

Context (R : relation World) `{!FsFrame R}.

Lemma stable_ret {A} (a : A) : stable R (ret a).
Proof. intros w. reflexivity. Qed.

Lemma stable_raise {A} e : stable R (@raise A e).
Proof. intros w. reflexivity. Qed.

Lemma stable_lift {A} (r : Res A) : stable R (lift r).
Proof. intros w. reflexivity. Qed.

Lemma stable_bind {A B} (m : M A) (k : A -> M B) :
  stable R m -> (forall a, stable R (k a)) -> stable R (m ≫= k).
Proof.
  intros Hm Hk w. rewrite bind_run. specialize (Hm w).
  destruct (m w) as [[a|e] w1]; simpl in *; [|exact Hm].
  etransitivity; [exact Hm | apply Hk].
Qed.

Lemma stable_try {A} (m h : M A) e :
  stable R m -> stable R h -> stable R (try_except m e h).
Proof.
  intros Hm Hh w. unfold try_except. specialize (Hm w).
  destruct (m w) as [[a|e'] w1]; simpl in *; [exact Hm|].
  destruct (decide (e' = e)); simpl; [|exact Hm].
  etransitivity; [exact Hm | apply Hh].
Qed.

Lemma stable_for_each {A} (body : A -> M unit) l :
  (forall x, stable R (body x)) -> stable R (for_each body l).
Proof.
  intros Hb. induction l as [|x l IH]; simpl.
  - apply stable_ret.
  - apply stable_bind; [apply Hb | intros _; exact IH].
Qed.

Lemma stable_get_fs : stable R get_fs.
Proof. intros w. reflexivity. Qed.

Lemma stable_get_heap : stable R get_heap.
Proof. intros w. reflexivity. Qed.

Lemma stable_emit ev : stable R (emit ev).
Proof. intros w. apply frame_emit. Qed.

Lemma stable_put_fs f : stable R (put_fs f).
Proof. intros w. apply frame_fs. Qed.

Lemma stable_get_backend self : stable R (get_backend self).
Proof.
  intros w. unfold get_backend. rewrite bind_run. simpl.
  destruct (heap w !! self) as [[?|?]|]; reflexivity.
Qed.

Lemma stable_get_obj a : stable R (get_obj a).
Proof.
  intros w. unfold get_obj. rewrite bind_run. simpl.
  destruct (heap w !! a) as [[?|?]|]; reflexivity.
Qed.

Lemma stable_hasattr_data a : stable R (hasattr_data a).
Proof. intros w. reflexivity. Qed.

End Stable.

Section StableHeap.

Context (R : relation World) `{!Frame R}.

Lemma stable_update_obj a f : binding_update f -> stable R (update_obj a f).
Proof.
  intros Hf w. unfold update_obj, get_obj. rewrite !bind_run. simpl.
  destruct (heap w !! a) as [[?|o]|] eqn:E; simpl; try reflexivity.
  apply (frame_update w a o f E Hf).
Qed.

Lemma stable_alloc c : stable R (alloc c).
Proof. intros w. unfold alloc. rewrite !bind_run. simpl. apply frame_alloc. Qed.

End StableHeap.

(** Syntax-directed proof of [stable R m]: follow the binds, split on the
    scrutinee of every [match] and [if], close the leaves with the lemmas
    of the primitives. *)
Ltac head_of t :=
  lazymatch t with
  | ?f _ => head_of f
  | _ => t
  end.

Ltac stable_step :=
  lazymatch goal with
  | |- stable ?R ?m =>
      first
        [ apply (stable_ret R) | apply (stable_raise R) | apply (stable_lift R)
        | apply (stable_get_fs R) | apply (stable_get_heap R)
        | apply (stable_emit R) | apply (stable_put_fs R)
        | apply (stable_get_backend R) | apply (stable_get_obj R)
        | apply (stable_hasattr_data R) | apply (stable_alloc R)
        | apply (stable_update_obj R); constructor
        | apply (stable_bind R); [|intros ?]
        | apply (stable_try R)
        | apply (stable_for_each R); intros ?
        | lazymatch m with
          | match ?x with _ => _ end => destruct x
          | _ => let f := head_of m in unfold f
          end ]
  end.

Ltac stable_tac := repeat stable_step.

Section StableFsOps.

Context (R : relation World) `{!FsFrame R} (X : Extern).

Lemma stable_fs_exists p : stable R (fs_exists p).
Proof. unfold fs_exists. stable_tac. Qed.

Lemma stable_fs_mkdir p : stable R (fs_mkdir p).
Proof. unfold fs_mkdir. stable_tac. Qed.

Lemma stable_fs_iterdir p : stable R (fs_iterdir p).
Proof. unfold fs_iterdir. stable_tac. Qed.

Lemma stable_write_json p d : stable R (write_json p d).
Proof. unfold write_json. stable_tac. Qed.

Lemma stable_read_json p : stable R (read_json p).
Proof. unfold read_json. stable_tac. Qed.

Lemma stable_np_save p v : stable R (np_save p v).
Proof. unfold np_save. stable_tac. Qed.

Lemma stable_np_load p : stable R (np_load p).
Proof. unfold np_load. stable_tac. Qed.

Lemma stable_fs_resolve d : stable R (fs_resolve X d).
Proof. unfold fs_resolve. stable_tac. Qed.

Lemma stable_fs_lstat d : stable R (fs_lstat X d).
Proof. unfold fs_lstat. stable_tac. Qed.

Lemma stable_backend_eq x self : stable R (backend_eq X x self).
Proof.
  unfold backend_eq. stable_tac.
Qed.

Lemma stable_get_id_list self table : stable R (get_id_list self table).
Proof. unfold get_id_list. stable_tac. Qed.

Lemma stable_get_next_available_id self table :
  stable R (get_next_available_id self table).
Proof. unfold get_next_available_id. stable_tac. Qed.

Lemma stable_contains self table i : stable R (contains self table i).
Proof. unfold contains. stable_tac. Qed.

Lemma stable_get_path_to_row self table i : stable R (get_path_to_row self table i).
Proof. unfold get_path_to_row. stable_tac. Qed.

Lemma stable_add_row self d table : stable R (add_row X self d table).
Proof.
  unfold add_row. stable_tac.
Qed.

Lemma stable_open_serialization self table i :
  stable R (open_serialization self table i).
Proof. unfold open_serialization. stable_tac. Qed.

End StableFsOps.

Section StableOps.

Context (R : relation World) `{!Frame R} (X : Extern).

Lemma stable_open self cls i : stable R (open self cls i).
Proof. unfold open. stable_tac. Qed.

Lemma stable_load_obj_data self obj : stable R (load_obj_data self obj).
Proof.
  unfold load_obj_data. stable_tac.
Qed.

Lemma stable_save_data_obj self d : stable R (save_data_obj X self d).
Proof.
  unfold save_data_obj. stable_tac.
Qed.

Lemma stable_save_own_row self obj : stable R (save_own_row X self obj).
Proof. unfold save_own_row. stable_tac. Qed.

Lemma stable_save self obj : stable R (save X self obj).
Proof.
  unfold save. stable_tac.
Qed.

End StableOps.

(** ** Three frames *)

#[global] Instance heap_same_frame : FsFrame heap_same.
Proof.
  split.
  - split; [intros w; reflexivity | intros w1 w2 w3 H1 H2].
    unfold heap_same in *. congruence.
  - intros w ev. reflexivity.
  - intros w f. reflexivity.
Qed.

#[global] Instance keeps_backends_frame : Frame keeps_backends.
Proof.
  split; [split|..].
  - split; [intros w a b H; exact H | intros w1 w2 w3 H1 H2 a b H; eauto].
  - intros w ev a b H; exact H.
  - intros w f a b H; exact H.
  - intros w a o f Ha _ a' b H; simpl.
    rewrite lookup_insert_ne; [exact H | congruence].
  - intros w c a b H; simpl.
    rewrite lookup_insert_ne; [exact H |].
    intros <-. apply (is_fresh (dom (heap w))), elem_of_dom. eauto.
Qed.

Lemma binding_update_id f o :
  binding_update f -> is_Some (id o) -> is_Some (id (f o)).
Proof. intros [] H; simpl; eauto. Qed.

#[global] Instance keeps_ids_frame : Frame keeps_ids.
Proof.
  split; [split|..].
  - split; [intros w a H; exact H | intros w1 w2 w3 H1 H2 a H; eauto].
  - intros w ev a H; exact H.
  - intros w f a H; exact H.
  - intros w a o f Ha Hf a' (o' & Ho' & Hid); simpl.
    destruct (decide (a = a')) as [<-|Hne].
    + exists (f o). rewrite lookup_insert_eq. split; [reflexivity|].
      apply binding_update_id; [exact Hf | congruence].
    + exists o'. rewrite lookup_insert_ne by exact Hne. eauto.
  - intros w c a (o & Ho & Hid); simpl. exists o. split; [|exact Hid].
    rewrite lookup_insert_ne; [exact Ho |].
    intros <-. apply (is_fresh (dom (heap w))), elem_of_dom. eauto.
Qed.

#[global] Instance log_grows_frame : Frame log_grows.
Proof.
  split; [split|..].
  - split; [intros w; unfold log_grows; reflexivity | intros w1 w2 w3 H1 H2].
    unfold log_grows in *. etransitivity; eassumption.
  - intros w ev. unfold log_grows; simpl. apply prefix_app_r. reflexivity.
  - intros w f. unfold log_grows; reflexivity.
  - intros w a o f _ _. unfold log_grows; reflexivity.
  - intros w c. unfold log_grows; reflexivity.
Qed.

(** ** Operations that only read *)

Lemma reads_only_ret {A} (a : A) : reads_only (ret a).
Proof. intros f h. exists (Ok a), []. split; [reflexivity|]. intros l. by rewrite app_nil_r. Qed.

Lemma reads_only_raise {A} e : reads_only (@raise A e).
Proof. intros f h. exists (Raise e), []. split; [reflexivity|]. intros l. by rewrite app_nil_r. Qed.

Lemma reads_only_lift {A} (r : Res A) : reads_only (lift r).
Proof. intros f h. exists r, []. split; [reflexivity|]. intros l. by rewrite app_nil_r. Qed.

Lemma reads_only_get_fs : reads_only get_fs.
Proof. intros f h. exists (Ok f), []. split; [reflexivity|]. intros l. by rewrite app_nil_r. Qed.

Lemma reads_only_get_heap : reads_only get_heap.
Proof. intros f h. exists (Ok h), []. split; [reflexivity|]. intros l. by rewrite app_nil_r. Qed.

Lemma reads_only_emit ev : is_write ev = false -> reads_only (emit ev).
Proof.
  intros Hev f h. exists (Ok tt), [ev]. split; [|reflexivity].
  simpl. by rewrite Hev.
Qed.

Lemma no_write_app evs1 evs2 :
  no_write evs1 = true -> no_write evs2 = true -> no_write (evs1 ++ evs2) = true.
Proof. unfold no_write. intros H1 H2. rewrite forallb_app, H1, H2. reflexivity. Qed.

Lemma reads_only_bind {A B} (m : M A) (k : A -> M B) :
  reads_only m -> (forall a, reads_only (k a)) -> reads_only (m ≫= k).
Proof.
  intros Hm Hk f h. destruct (Hm f h) as (r & evs & Hw & Hrun).
  destruct r as [a|e].
  - destruct (Hk a f h) as (r2 & evs2 & Hw2 & Hrun2).
    exists r2, (evs ++ evs2)%list. split; [by apply no_write_app|].
    intros l. rewrite (bind_ok _ _ _ _ _ (Hrun l)), Hrun2, app_assoc. reflexivity.
  - exists (Raise e), evs. split; [exact Hw|].
    intros l. apply bind_raise, Hrun.
Qed.

Ltac reads_only_step :=
  lazymatch goal with
  | |- reads_only ?m =>
      first
        [ apply reads_only_ret | apply reads_only_raise | apply reads_only_lift
        | apply reads_only_get_fs | apply reads_only_get_heap
        | apply reads_only_emit; reflexivity
        | apply reads_only_bind; [|intros ?]
        | lazymatch m with
          | match ?x with _ => _ end => destruct x
          | _ => let f := head_of m in unfold f
          end ]
  end.

Ltac reads_only_tac := repeat reads_only_step.

Lemma reads_only_backend_eq X x self : reads_only (backend_eq X x self).
Proof. reads_only_tac. Qed.

Lemma reads_only_get_id_list self table : reads_only (get_id_list self table).
Proof. reads_only_tac. Qed.

Lemma reads_only_contains self table i : reads_only (contains self table i).
Proof. reads_only_tac. Qed.

Lemma reads_only_get_path_to_row self table i :
  reads_only (get_path_to_row self table i).
Proof. reads_only_tac. Qed.

(** ** The path codec *)

(** No token of a split holds the separator. *)
Lemma split_tokens_no_sep sep s :
  Forall (fun t => PyStr.has_char sep t = false) (PyStr.split sep s).
Proof.
  induction s as [|c r IH]; simpl.
  - repeat constructor.
  - destruct (Ascii.eqb c sep) eqn:E.
    + constructor; [reflexivity | exact IH].
    + destruct (PyStr.split sep r) as [|t ts]; simpl.
      * repeat constructor. simpl. by rewrite E.
      * inversion IH; subst. constructor; [simpl; by rewrite E | assumption].
Qed.

Lemma has_char_append c s t :
  PyStr.has_char c (s +:+ t) = PyStr.has_char c s || PyStr.has_char c t.
Proof. induction s as [|a r IH]; simpl; [reflexivity|]. by rewrite IH, orb_assoc. Qed.

Lemma join_empty_no_sep sep l :
  Forall (fun t => PyStr.has_char sep t = false) l ->
  PyStr.has_char sep (PyStr.join EmptyString l) = false.
Proof.
  unfold PyStr.join. induction 1 as [|t l Ht Hl IH]; simpl; [reflexivity|].
  destruct l as [|t' l']; [exact Ht|].
  change (PyStr.has_char sep (t +:+ "" +:+ String.concat "" (t' :: l')) = false).
  rewrite !has_char_append, Ht, IH. reflexivity.
Qed.

(** The name decoded by [name_from_path] never holds an underscore. *)
Lemma name_from_path_no_underscore p :
  PyStr.has_char "_"%char (name_from_path p) = false.
Proof.
  unfold name_from_path. apply join_empty_no_sep.
  pose proof (split_tokens_no_sep "_"%char (PyPath.stem (pname p))) as H.
  destruct (PyStr.split "_"%char (PyPath.stem (pname p))); simpl; [constructor|].
  by inversion H.
Qed.

(** C8: [name_from_path] joins the tokens after the first with the empty
    string, not with an underscore: the stem [7_a_b] decodes to [ab], and
    no decoded name ever holds an underscore; a stem with no token after
    the identifier decodes to the empty string. *)
Theorem name_from_path_joins_without_underscore :
  (forall p, PyStr.has_char "_"%char (name_from_path p) = false) /\
  (forall d, name_from_path (mkPath d "7_a_b.ix") = "ab") /\
  (forall d, name_from_path (mkPath d "7.ix") = "").
Proof. split; [exact name_from_path_no_underscore | split; reflexivity]. Qed.

Example split_keeps_empty_tokens : PyStr.split "_"%char "_a__" = [""; "a"; ""; ""].
Proof. reflexivity. Qed.

Example int_accepts :
  PyStr.int " +12 " = Some 12 /\ PyStr.int "-7" = Some (-7) /\ PyStr.int "1_0" = Some 10.
Proof. repeat split. Qed.

Example int_refuses :
  PyStr.int "notanumber" = None /\ PyStr.int "" = None /\ PyStr.int "1__0" = None
  /\ PyStr.int "- 1" = None /\ PyStr.int "3.ix" = None /\ PyStr.int BUILTIN_ID = None.
Proof. repeat split. Qed.

(** A form feed before the digits is stripped, a unit separator is not. *)
Example int_blanks :
  PyStr.int (String (ascii_of_nat 12) "5") = Some 5 /\
  PyStr.int (String (ascii_of_nat 31) "5") = None /\
  id_from_path (mkPath "root/series" (String (ascii_of_nat 31) "5_x.ix")) = None.
Proof. repeat split. Qed.

Example of_int_decimal :
  PyStr.of_int 120 = "120" /\ PyStr.of_int (-3) = "-3" /\ PyStr.of_int 0 = "0".
Proof. repeat split. Qed.

Example stem_and_suffix :
  PyPath.stem "7_a_b.ix" = "7_a_b" /\ PyPath.suffix "7_a_b.ix" = ".ix"
  /\ PyPath.stem ".hidden" = ".hidden" /\ PyPath.suffix "a." = ""
  /\ PyPath.stem "a.b.c" = "a.b" /\ PyPath.suffix "3_x" = "".
Proof. repeat split. Qed.

Example id_from_path_decodes :
  id_from_path (mkPath "t" "12_run_a.ix") = Some 12
  /\ id_from_path (mkPath "t" "notanumber_foo.meta") = None.
Proof. split; reflexivity. Qed.

(** ** Running the primitives *)

(** Take the steps of a run whose binds all start from known values. *)
Ltac mrun := repeat (rewrite bind_run; simpl).

Lemma get_backend_run self b w :
  heap w !! self = Some (CBackend b) -> get_backend self w = (Ok b, w).
Proof. intros H. unfold get_backend. rewrite bind_run. simpl. rewrite H. reflexivity. Qed.

Lemma get_obj_run a o w :
  heap w !! a = Some (CObj o) -> get_obj a w = (Ok o, w).
Proof. intros H. unfold get_obj. rewrite bind_run. simpl. rewrite H. reflexivity. Qed.

Lemma fs_iterdir_run p l w :
  fs w !! path_str p = Some l ->
  fs_iterdir p w = (Ok l, logged w [EvIterdir p]).
Proof. intros H. unfold fs_iterdir. mrun. rewrite H. reflexivity. Qed.

(** ** Enumerating a table *)

Lemma id_list_loop_dirs names acc : id_list_loop (Dir <$> names) acc = Ok acc.
Proof. induction names as [|n names IH]; simpl; [reflexivity | exact IH]. Qed.

(** The loop stops with [ValueError] at a regular file whose leading token
    is no integer. *)
Lemma id_list_loop_malformed n c rest acc :
  PyStr.int (PyStr.head_tok (PyStr.split "_"%char n)) = None ->
  id_list_loop (File n c :: rest) acc = Raise ValueError.
Proof. intros H. simpl. unfold int_r. rewrite H. reflexivity. Qed.

Lemma get_id_list_run self b table files w :
  heap w !! self = Some (CBackend b) ->
  fs w !! path_join (directory b) table = Some files ->
  get_id_list self table w
  = (id_list_loop files [], logged w [EvIterdir (mkPath (directory b) table)]).
Proof.
  intros Hb Hf. unfold get_id_list.
  rewrite (bind_ok _ _ _ _ _ (get_backend_run _ _ _ Hb)).
  rewrite (bind_ok _ _ _ _ _ (fs_iterdir_run (mkPath _ _) _ _ Hf)).
  reflexivity.
Qed.

Lemma get_next_available_id_run self b table files w :
  heap w !! self = Some (CBackend b) ->
  fs w !! path_join (directory b) table = Some files ->
  get_next_available_id self table w
  = (match id_list_loop files [] with
     | Ok ids => match py_max ids with
                 | Ok m => Ok (m + 1)
                 | Raise e => Raise e
                 end
     | Raise e => Raise e
     end, logged w [EvIterdir (mkPath (directory b) table)]).
Proof.
  intros Hb Hf. unfold get_next_available_id.
  rewrite bind_run, (get_id_list_run _ _ _ _ _ Hb Hf).
  destruct (id_list_loop files []) as [ids|e]; [|reflexivity].
  rewrite bind_run. unfold lift. destruct (py_max ids); reflexivity.
Qed.

(** C2: on a table directory without a single row (empty, or holding
    sub-directories only) [get_next_available_id] raises the [ValueError]
    of [max] on an empty list; there is no seed. *)
Theorem next_id_of_empty_table_raises self b table names f0 h0 l :
  get_next_available_id self table
    (mkWorld (<[path_join (directory b) table := Dir <$> names]> f0)
             (<[self := CBackend b]> h0) l)
  = (Raise ValueError,
     mkWorld (<[path_join (directory b) table := Dir <$> names]> f0)
             (<[self := CBackend b]> h0)
             (l ++ [EvIterdir (mkPath (directory b) table)])%list).
Proof.
  erewrite get_next_available_id_run;
    [| apply lookup_insert_eq | apply lookup_insert_eq].
  rewrite id_list_loop_dirs. reflexivity.
Qed.

(** A regular file whose leading token is no integer stops the loop
    with [ValueError], wherever it stands in the listing. *)
Lemma id_list_loop_raises files :
  (exists e, e ∈ files /\ is_dir e = false /\ PyStr.int (name_token e) = None) ->
  forall acc, id_list_loop files acc = Raise ValueError.
Proof.
  induction files as [|file rest IH]; intros (e & He & Hd & Hi) acc.
  - by apply elem_of_nil in He.
  - apply elem_of_cons in He as [<-|He].
    + destruct e as [n c|n]; [|discriminate].
      by apply id_list_loop_malformed.
    + assert (forall acc', id_list_loop rest acc' = Raise ValueError) as Hrest
        by (apply IH; eauto).
      simpl. destruct file as [n c|n]; simpl; [|apply Hrest].
      unfold int_r.
      destruct (PyStr.int (PyStr.head_tok (PyStr.split "_"%char n))); simpl;
        [apply Hrest | reflexivity].
Qed.

(** The first row of a table can never be written: [add_row] creates the
    directory and then asks for the next identifier of an empty table. *)
Example add_row_fresh_table :
  exists w',
    add_row Demo.extern 0 {[ "name" := VStr "beta" ]} "series" Demo.no_table
    = (Raise ValueError, w') /\
    fs w' !! "root/series" = Some [] /\
    log w' = [EvExists (mkPath "root" "series"); EvMkdir (mkPath "root" "series");
              EvIterdir (mkPath "root" "series")].
Proof.
  eexists. split; [vm_compute; reflexivity|]. split; vm_compute; reflexivity.
Qed.

(** C3: a regular file whose leading token is no integer, such as
    [notanumber_foo.meta], makes [get_id_list] raise [ValueError] wherever
    it stands in the directory: the loop excuses [TypeError] only. *)
Theorem get_id_list_malformed_name_raises self b table c pre post f0 h0 l :
  get_id_list self table
    (mkWorld (<[path_join (directory b) table
                := (pre ++ File "notanumber_foo.meta" c :: post)%list]> f0)
             (<[self := CBackend b]> h0) l)
  = (Raise ValueError,
     mkWorld (<[path_join (directory b) table
                := (pre ++ File "notanumber_foo.meta" c :: post)%list]> f0)
             (<[self := CBackend b]> h0)
             (l ++ [EvIterdir (mkPath (directory b) table)])%list).
Proof.
  erewrite get_id_list_run; [| apply lookup_insert_eq | apply lookup_insert_eq].
  rewrite id_list_loop_raises; [reflexivity|].
  exists (File "notanumber_foo.meta" c). split; [|by split].
  apply elem_of_app. right. left.
Qed.

(** ** Writing a row *)

(** The leading token of every file name [add_row] builds. *)
Lemma add_row_file_name_token X nm sfx :
  PyStr.head_tok (PyStr.split "_"%char (BUILTIN_ID +:+ "_" +:+ fmt X nm +:+ "." +:+ sfx))
  = BUILTIN_ID.
Proof.
  simpl. destruct (PyStr.split "_"%char (fmt X nm +:+ "." +:+ sfx)); reflexivity.
Qed.

(** C1: in a table whose only row is [0_alpha], [add_row] allocates and
    returns 1, and the file it writes is named after the builtin [id], not
    after the 1 it returns: no file of the table decodes to 1. *)
Theorem add_row_names_file_after_builtin_id :
  exists w',
    add_row Demo.extern 0 {[ "name" := VStr "beta" ]} "series" Demo.one_row_nodot
    = (Ok 1, w') /\
    ename <$> default [] (fs w' !! "root/series")
    = ["0_alpha.ix"; "<built-in function id>_beta.ix"] /\
    id_from_path (mkPath "root/series" "<built-in function id>_beta.ix") = None /\
    forallb (fun e => negb (bool_decide
                          (id_from_path (mkPath "root/series" (ename e)) = Some 1)))
            (default [] (fs w' !! "root/series")) = true.
Proof.
  eexists. split; [vm_compute; reflexivity|].
  split; [vm_compute; reflexivity|].
  split; vm_compute; reflexivity.
Qed.

(** ** Inverting a run *)

Lemma bind_inv_ok {A B} (m : M A) (k : A -> M B) w r w' :
  (m ≫= k) w = (Ok r, w') ->
  exists a w1, m w = (Ok a, w1) /\ k a w1 = (Ok r, w').
Proof.
  rewrite bind_run. destruct (m w) as [[a|e] w1]; [eauto | discriminate].
Qed.

Lemma ret_inv {A} (a r : A) w w' : ret a w = (Ok r, w') -> r = a /\ w' = w.
Proof. unfold ret. intros [= -> ->]. split; reflexivity. Qed.

Lemma get_heap_inv w h w' : get_heap w = (Ok h, w') -> h = heap w /\ w' = w.
Proof. unfold get_heap. intros [= <- <-]. split; reflexivity. Qed.

Lemma get_obj_inv a w o w' :
  get_obj a w = (Ok o, w') -> heap w !! a = Some (CObj o) /\ w' = w.
Proof.
  unfold get_obj. rewrite bind_run. simpl.
  destruct (heap w !! a) as [[?|?]|]; try discriminate.
  intros [= <- <-]. split; reflexivity.
Qed.

Lemma get_backend_inv a w b w' :
  get_backend a w = (Ok b, w') -> heap w !! a = Some (CBackend b) /\ w' = w.
Proof.
  unfold get_backend. rewrite bind_run. simpl.
  destruct (heap w !! a) as [[?|?]|]; try discriminate.
  intros [= <- <-]. split; reflexivity.
Qed.

Lemma update_obj_run a f o w :
  heap w !! a = Some (CObj o) ->
  update_obj a f w = (Ok tt, mkWorld (fs w) (<[a := CObj (f o)]> (heap w)) (log w)).
Proof.
  intros H. unfold update_obj.
  rewrite (bind_ok _ _ _ _ _ (get_obj_run _ _ _ H)). reflexivity.
Qed.

Lemma update_obj_inv a f w u w' :
  update_obj a f w = (Ok u, w') ->
  exists o, heap w !! a = Some (CObj o) /\
            w' = mkWorld (fs w) (<[a := CObj (f o)]> (heap w)) (log w).
Proof.
  intros H. unfold update_obj in H.
  apply bind_inv_ok in H as (o & w1 & Ho & H).
  apply get_obj_inv in Ho as [Ho ->].
  exists o. split; [exact Ho|]. revert H. mrun. by intros [= _ <-].
Qed.

(** Operations on the directory tree leave the heap alone. *)
Lemma add_row_heap X self d table w : heap (add_row X self d table w).2 = heap w.
Proof. apply (stable_add_row heap_same). Qed.

Lemma contains_heap self table i w : heap (contains self table i w).2 = heap w.
Proof. apply (stable_contains heap_same). Qed.

Lemma backend_eq_heap X x self w : heap (backend_eq X x self w).2 = heap w.
Proof. apply (stable_backend_eq heap_same). Qed.

Lemma np_save_heap p v w : heap (np_save p v w).2 = heap w.
Proof. apply (stable_np_save heap_same). Qed.

(** ** [save] *)

(** [save] is the saving of the data objects followed by [save_own_row]. *)
Lemma save_split X self obj w :
  save X self obj w
  = (o ← get_obj obj;
     _ ← (if negb (bool_decide (data_objects o = []))
          then for_each (fun d => _ ← save_data_obj X self d; ret tt) (data_objects o)
          else ret tt);
     save_own_row X self obj) w.
Proof. reflexivity. Qed.

(** A successful [save_own_row], step by step. *)
Lemma save_own_row_ok X self obj w r w' :
  save_own_row X self obj w = (Ok r, w') ->
  exists o b i w2,
    heap w !! obj = Some (CObj o) /\
    heap w !! self = Some (CBackend b) /\
    add_row X self (as_dict X (heap w) obj)
            (match table_name o with Some t => t | None => type_str o end) w
    = (Ok i, w2) /\
    r = Some i /\
    w' = mkWorld (fs w2)
           (<[obj := CObj (set_backend_name (Some (backend_name_of b))
                              (set_id (Some i) o))]> (heap w))
           (log w2).
Proof.
  intros H. unfold save_own_row in H.
  apply bind_inv_ok in H as (o & w1 & Ho & H). apply get_obj_inv in Ho as [Ho ->].
  apply bind_inv_ok in H as (h & w1 & Hh & H). apply get_heap_inv in Hh as [-> ->].
  apply bind_inv_ok in H as (i & w2 & Hadd & H).
  pose proof (add_row_heap X self (as_dict X (heap w) obj)
                (match table_name o with Some t => t | None => type_str o end) w) as Hheap.
  rewrite Hadd in Hheap; simpl in Hheap.
  apply bind_inv_ok in H as (u & w3 & Hu & H).
  apply update_obj_inv in Hu as (o2 & Ho2 & ->).
  rewrite Hheap, Ho in Ho2. injection Ho2 as <-.
  apply bind_inv_ok in H as (b & w4 & Hb & H).
  apply get_backend_inv in Hb as [Hb ->]. simpl in Hb.
  apply bind_inv_ok in H as (u2 & w5 & Hu2 & H).
  apply update_obj_inv in Hu2 as (o3 & Ho3 & ->). simpl in Ho3.
  rewrite lookup_insert_eq in Ho3. injection Ho3 as <-.
  apply bind_inv_ok in H as (o4 & w6 & Ho4 & H).
  apply get_obj_inv in Ho4 as [Ho4 ->]. simpl in Ho4.
  rewrite lookup_insert_eq in Ho4. injection Ho4 as <-.
  apply ret_inv in H as [-> ->]. simpl.
  assert (self <> obj) as Hne.
  { intros ->. rewrite lookup_insert_eq in Hb. discriminate. }
  rewrite lookup_insert_ne in Hb by congruence. rewrite Hheap in Hb.
  exists o, b, i, w2. repeat split; try assumption.
  rewrite insert_insert_eq, Hheap. reflexivity.
Qed.

Lemma for_each_saved_in_order X self ds w w1 :
  for_each (fun d => _ ← save_data_obj X self d; ret tt) ds w = (Ok tt, w1) ->
  saved_in_order X self ds w w1.
Proof.
  revert w. induction ds as [|d ds IH]; simpl; intros w H.
  - apply ret_inv in H as [_ ->]. constructor.
  - apply bind_inv_ok in H as ([] & w2 & Hd & H).
    apply bind_inv_ok in Hd as (r & w3 & Hd & Hret).
    apply ret_inv in Hret as [_ ->].
    econstructor; [exact Hd | apply IH, H].
Qed.

(** The data objects of a successful [save] were saved in order. *)
Lemma save_ok_split X self obj w r w' :
  save X self obj w = (Ok r, w') ->
  exists o w1,
    heap w !! obj = Some (CObj o) /\
    saved_in_order X self (data_objects o) w w1 /\
    save_own_row X self obj w1 = (Ok r, w').
Proof.
  rewrite save_split. intros H.
  apply bind_inv_ok in H as (o & w0 & Ho & H). apply get_obj_inv in Ho as [Ho ->].
  apply bind_inv_ok in H as ([] & w1 & Hc & H).
  exists o, w1. split; [exact Ho|]. split; [|exact H].
  destruct (bool_decide (data_objects o = [])) eqn:E; simpl in Hc.
  - apply bool_decide_eq_true in E. rewrite E.
    apply ret_inv in Hc as [_ ->]. constructor.
  - apply for_each_saved_in_order, Hc.
Qed.

(** C7, as the code has it: after [save(obj)] returns [i], the object
    records [i] as its [id] and the NAME of the store, the string
    [DirBackend(<directory>)], as its [backend_name]. Nothing else is
    assigned: the object is otherwise what it was once its data objects had
    been saved, its [backend] reference included. *)
Theorem save_records_id_and_backend_name X self obj w r w' :
  save X self obj w = (Ok r, w') ->
  exists i b o w1 o1,
    r = Some i /\
    heap w !! obj = Some (CObj o) /\
    saved_in_order X self (data_objects o) w w1 /\
    heap w1 !! obj = Some (CObj o1) /\
    heap w' !! self = Some (CBackend b) /\
    heap w' !! obj
    = Some (CObj (mkSaveable (type_str o1) (table_name o1) (name o1)
                    (data_objects o1) (data o1)
                    (Some i) (backend o1) (Some (backend_name_of b)))).
Proof.
  intros H. apply save_ok_split in H as (o & w1 & Ho & Hsio & H).
  apply save_own_row_ok in H as (o1 & b & i & w2 & Ho1 & Hb & _ & -> & ->).
  exists i, b, o, w1, o1. simpl.
  assert (self <> obj) as Hne by congruence.
  rewrite lookup_insert_eq, lookup_insert_ne by congruence.
  repeat split; assumption.
Qed.

Lemma save_records_id_and_backend_name_witness :
  exists i b o w1 o1,
    Some 1 = Some i /\
    heap Demo.one_row !! 1%nat = Some (CObj o) /\
    saved_in_order Demo.extern 0 (data_objects o) Demo.one_row w1 /\
    heap w1 !! 1%nat = Some (CObj o1) /\
    heap Demo.one_row_saved !! 0%nat = Some (CBackend b) /\
    heap Demo.one_row_saved !! 1%nat
    = Some (CObj (mkSaveable (type_str o1) (table_name o1) (name o1)
                    (data_objects o1) (data o1)
                    (Some i) (backend o1) (Some (backend_name_of b)))).
Proof.
  apply (save_records_id_and_backend_name Demo.extern 0 1 Demo.one_row).
  vm_compute. reflexivity.
Defined.

(** C7, as claimed, fails: [save] of an unbound object returns 1 and
    leaves its [backend] at [None], which does not compare equal to the
    store; what it records is the string [DirBackend(root)]. *)
Lemma save_does_not_bind_backend :
  exists w' o',
    save Demo.extern 0 1 Demo.one_row = (Ok (Some 1), w') /\
    heap w' !! 1%nat = Some (CObj o') /\
    backend o' = None /\
    backend_name o' = Some "DirBackend(root)" /\
    (backend_eq Demo.extern (backend o') 0 w').1 = Ok false.
Proof.
  eexists. eexists. split; [vm_compute; reflexivity|].
  split; [vm_compute; reflexivity|]. repeat split.
Qed.

(** ** The store's own attributes *)

(** C10: whatever a public operation does, and whether it returns or
    raises, the store instance holds the same [directory], [suffix] and
    [data_suffix] afterwards. *)
Theorem operations_keep_store_configuration X self b w :
  heap w !! self = Some (CBackend b) ->
  (forall obj, heap (save X self obj w).2 !! self = Some (CBackend b)) /\
  (forall cls i, heap (open self cls i w).2 !! self = Some (CBackend b)) /\
  (forall table i, heap (contains self table i w).2 !! self = Some (CBackend b)) /\
  (forall obj, heap (load_obj_data self obj w).2 !! self = Some (CBackend b)) /\
  (forall d, heap (save_data_obj X self d w).2 !! self = Some (CBackend b)).
Proof.
  intros Hb. repeat split; intros.
  - by apply (stable_save keeps_backends X self obj w).
  - by apply (stable_open keeps_backends self cls i w).
  - by apply (stable_contains keeps_backends self table i w).
  - by apply (stable_load_obj_data keeps_backends self obj w).
  - by apply (stable_save_data_obj keeps_backends X self d w).
Qed.

Lemma operations_keep_store_configuration_witness :
  heap Demo.family !! 0%nat = Some (CBackend Demo.store) /\
  heap (save Demo.extern 0 1 Demo.family).2 !! 0%nat = Some (CBackend Demo.store).
Proof.
  assert (heap Demo.family !! 0%nat = Some (CBackend Demo.store)) as Hb
    by (vm_compute; reflexivity).
  split; [exact Hb|].
  exact (proj1 (operations_keep_store_configuration
                  Demo.extern 0 Demo.store Demo.family Hb) 1%nat).
Defined.

(** ** [save_data_obj] *)

Lemma contains_true_has_id self table i w :
  (contains self table i w).1 = Ok true -> exists z, i = Some z.
Proof.
  unfold contains. rewrite bind_run.
  destruct (get_id_list self table w) as [[ids|e] w1]; simpl; [|discriminate].
  destruct i as [z|]; [eauto | discriminate].
Qed.

(** The early return of [save_data_obj], from any log. *)
Lemma save_data_obj_dedup_run X self d o table f h evs1 evs2 :
  h !! d = Some (CObj o) ->
  table_name o = Some table ->
  (forall l, backend_eq X (backend o) self (mkWorld f h l)
             = (Ok true, mkWorld f h (l ++ evs1)%list)) ->
  (forall l, contains self table (id o) (mkWorld f h l)
             = (Ok true, mkWorld f h (l ++ evs2)%list)) ->
  forall l, save_data_obj X self d (mkWorld f h l)
            = (Ok (id o), mkWorld f h (l ++ (evs1 ++ evs2))%list).
Proof.
  intros Ho Ht Heq Hin l. unfold save_data_obj.
  rewrite (bind_ok _ _ _ o _ (get_obj_run d o (mkWorld f h l) Ho)).
  rewrite Ht.
  rewrite (bind_ok _ _ _ _ _ (Heq l)).
  rewrite (bind_ok _ _ _ _ _ (Hin _)).
  rewrite app_assoc. reflexivity.
Qed.

(** X30: the early return of [save_data_obj]: a data object bound to
    this store and whose identifier the store's table contains is saved
    without any write: [save_data_obj] returns its identifier and leaves
    directory tree and heap as they are, and so does a second call. *)
Theorem save_data_obj_idempotent X self data_obj o table w :
  heap w !! data_obj = Some (CObj o) ->
  table_name o = Some table ->
  (backend_eq X (backend o) self w).1 = Ok true ->
  (contains self table (id o) w).1 = Ok true ->
  exists i evs,
    id o = Some i /\ no_write evs = true /\
    save_data_obj X self data_obj w = (Ok (Some i), logged w evs) /\
    save_data_obj X self data_obj (logged w evs)
    = (Ok (Some i), logged (logged w evs) evs).
Proof.
  intros Ho Ht Heq Hin.
  destruct (contains_true_has_id _ _ _ _ Hin) as [i Hi].
  destruct (reads_only_backend_eq X (backend o) self (fs w) (heap w))
    as (r1 & evs1 & Hw1 & Hrun1).
  destruct (reads_only_contains self table (id o) (fs w) (heap w))
    as (r2 & evs2 & Hw2 & Hrun2).
  destruct w as [f h l]; simpl in *.
  rewrite Hrun1 in Heq; simpl in Heq; subst r1.
  rewrite Hrun2 in Hin; simpl in Hin; subst r2.
  pose proof (save_data_obj_dedup_run X self data_obj o table f h evs1 evs2
                Ho Ht Hrun1 Hrun2) as Hrun.
  exists i, (evs1 ++ evs2)%list. rewrite <- Hi.
  split; [reflexivity|]. split; [by apply no_write_app|].
  split; apply Hrun.
Qed.

Lemma save_data_obj_idempotent_witness :
  exists i evs,
    id Demo.bound_obj = Some i /\ no_write evs = true /\
    save_data_obj Demo.extern 0 1 Demo.bound = (Ok (Some i), logged Demo.bound evs) /\
    save_data_obj Demo.extern 0 1 (logged Demo.bound evs)
    = (Ok (Some i), logged (logged Demo.bound evs) evs).
Proof.
  apply (save_data_obj_idempotent Demo.extern 0 1 Demo.bound_obj "series" Demo.bound);
    vm_compute; reflexivity.
Defined.

Example save_data_obj_bound_twice :
  (_ ← save_data_obj Demo.extern 0 1; save_data_obj Demo.extern 0 1) Demo.bound
  = (Ok (Some 3),
     logged Demo.bound [EvIterdir (mkPath "root" "series");
                        EvIterdir (mkPath "root" "series")]).
Proof. vm_compute. reflexivity. Qed.

(** An object that [open] loaded is bound to the store: saving it writes
    nothing. *)
Example open_then_save_data_obj :
  exists w',
    (obj ← open 0 Demo.series_cls (Some 3); save_data_obj Demo.extern 0 obj)
      Demo.stored = (Ok (Some 3), w') /\
    fs w' = fs Demo.stored /\
    filter (fun ev => is_write ev = true) (log w') = [].
Proof.
  eexists. split; [vm_compute; reflexivity|]. split; vm_compute; reflexivity.
Qed.

(** A first save of an unbound data object goes through [add_row], whose
    file name then stops every later enumeration of the table: the second
    call raises. *)
Example save_data_obj_fresh_twice :
  (save_data_obj Demo.extern 0 1 Demo.unsaved_data).1 = Ok (Some 1) /\
  ((_ ← save_data_obj Demo.extern 0 1; save_data_obj Demo.extern 0 1)
     Demo.unsaved_data).1 = Raise ValueError.
Proof. split; vm_compute; reflexivity. Qed.

(** C4: [save_data_obj] called twice on the same object through the same
    store does not yield the same identifier both times. The first call,
    on the unbound data object [beta], writes its row and returns 1; the
    object is then bound to the store with that identifier, yet the second
    call raises [ValueError] instead of returning 1: the table now holds
    the file the first call named after the builtin [id], at which
    [contains] stops. *)
Theorem save_data_obj_second_call_raises :
  (save_data_obj Demo.extern 0 1 Demo.unsaved_data).1 = Ok (Some 1) /\
  (exists o, heap Demo.data_saved !! 1%nat = Some (CObj o) /\
             id o = Some 1 /\ backend o = Some 0%nat) /\
  (contains 0 "series" (Some 1) Demo.data_saved).1 = Raise ValueError /\
  (save_data_obj Demo.extern 0 1 Demo.data_saved).1 = Raise ValueError.
Proof.
  split; [vm_compute; reflexivity|]. split.
  - eexists. split; [vm_compute; reflexivity|]. split; reflexivity.
  - split; vm_compute; reflexivity.
Qed.

(** A successful [save_data_obj]: either the early return, with the heap
    as it was, or a new identifier and the binding to the store. *)
Lemma save_data_obj_ok X self d w r w1 :
  save_data_obj X self d w = (Ok r, w1) ->
  exists o i,
    heap w !! d = Some (CObj o) /\ r = Some i /\
    ((id o = Some i /\ heap w1 = heap w) \/
     heap w1 = <[d := CObj (set_backend (Some self) (set_id (Some i) o))]> (heap w)).
Proof.
  intros H. unfold save_data_obj in H.
  apply bind_inv_ok in H as (o & w0 & Ho & H). apply get_obj_inv in Ho as [Ho ->].
  destruct (table_name o) as [table|]; [|discriminate].
  apply bind_inv_ok in H as (same & w2 & Hsame & H).
  pose proof (backend_eq_heap X (backend o) self w) as Hh2.
  rewrite Hsame in Hh2; simpl in Hh2.
  apply bind_inv_ok in H as (found & w3 & Hfound & H).
  assert (heap w3 = heap w) as Hh3.
  { destruct same.
    - pose proof (contains_heap self table (id o) w2) as Hc.
      rewrite Hfound in Hc; simpl in Hc. congruence.
    - apply ret_inv in Hfound as [_ ->]. exact Hh2. }
  destruct found.
  - apply ret_inv in H as [-> ->].
    destruct same; [|apply ret_inv in Hfound as [? _]; discriminate].
    destruct (contains_true_has_id self table (id o) w2) as [i Hi].
    { rewrite Hfound. reflexivity. }
    exists o, i. split; [exact Ho|]. split; [exact Hi|]. left. split; assumption.
  - apply bind_inv_ok in H as (h & w4 & Hh & H). apply get_heap_inv in Hh as [-> ->].
    apply bind_inv_ok in H as (dat & w4 & Hdat & H).
    unfold lift in Hdat. injection Hdat as Hdat <-.
    apply bind_inv_ok in H as (i & w5 & Hadd & H).
    match type of Hadd with
    | add_row ?X ?s ?dd ?t ?w = _ => pose proof (add_row_heap X s dd t w) as Hh5
    end.
    rewrite Hadd in Hh5; simpl in Hh5.
    apply bind_inv_ok in H as (u & w6 & Hu & H).
    apply update_obj_inv in Hu as (o5 & Ho5 & ->).
    rewrite Hh5, Hh3, Ho in Ho5. injection Ho5 as <-.
    apply bind_inv_ok in H as (b & w7 & Hb & H). apply get_backend_inv in Hb as [_ ->].
    apply bind_inv_ok in H as (u2 & w8 & Hu2 & H).
    apply update_obj_inv in Hu2 as (o6 & Ho6 & ->). simpl in Ho6.
    rewrite lookup_insert_eq in Ho6. injection Ho6 as <-.
    apply bind_inv_ok in H as (o7 & w9 & Ho7 & H). apply get_obj_inv in Ho7 as [Ho7 ->].
    simpl in Ho7. rewrite lookup_insert_eq in Ho7. injection Ho7 as <-.
    apply bind_inv_ok in H as (b2 & w10 & Hb2 & H). apply get_backend_inv in Hb2 as [_ ->].
    apply bind_inv_ok in H as (u3 & w11 & Hsave & H).
    match type of Hsave with
    | np_save ?p ?v ?w = _ => pose proof (np_save_heap p v w) as Hh11
    end.
    rewrite Hsave in Hh11; simpl in Hh11.
    apply bind_inv_ok in H as (o8 & w12 & Ho8 & H). apply get_obj_inv in Ho8 as [Ho8 ->].
    apply ret_inv in H as [-> ->].
    rewrite Hh11, lookup_insert_eq in Ho8. injection Ho8 as <-.
    exists o, i. split; [exact Ho|]. split; [reflexivity|]. right.
    rewrite Hh11, insert_insert_eq, Hh5, Hh3. reflexivity.
Qed.

(** After a successful [save_data_obj] the object holds the identifier
    returned. *)
Lemma save_data_obj_ok_has_id X self d w r w1 :
  save_data_obj X self d w = (Ok r, w1) -> has_id (heap w1) d.
Proof.
  intros H. apply save_data_obj_ok in H as (o & i & Ho & -> & [[Hi ->]| ->]).
  - exists o. split; [exact Ho | rewrite Hi; eauto].
  - eexists. rewrite lookup_insert_eq. split; [reflexivity | simpl; eauto].
Qed.

Lemma saved_in_order_keeps_ids X self ds w w1 :
  saved_in_order X self ds w w1 -> keeps_ids w w1.
Proof.
  induction 1 as [w|d ds w w1 w2 r Hd _ IH]; [reflexivity|].
  etransitivity; [|exact IH].
  pose proof (stable_save_data_obj keeps_ids X self d w) as Hk.
  rewrite Hd in Hk. exact Hk.
Qed.

(** Once the data objects are saved, each of them holds an identifier. *)
Lemma saved_in_order_ids X self ds w w1 :
  saved_in_order X self ds w w1 -> Forall (has_id (heap w1)) ds.
Proof.
  induction 1 as [w|d ds w w1 w2 r Hd Hrest IH]; constructor; [|exact IH].
  apply (saved_in_order_keeps_ids _ _ _ _ _ Hrest).
  apply (save_data_obj_ok_has_id _ _ _ _ _ _ Hd).
Qed.

(** The loop over the data objects stops at the first one that raises. *)
Lemma for_each_raise X self ds w e w' :
  for_each (fun d => _ ← save_data_obj X self d; ret tt) ds w = (Raise e, w') ->
  exists pre d post w0,
    ds = (pre ++ d :: post)%list /\
    saved_in_order X self pre w w0 /\
    save_data_obj X self d w0 = (Raise e, w').
Proof.
  revert w. induction ds as [|d ds IH]; simpl; intros w H; [discriminate|].
  rewrite bind_run in H.
  destruct ((_ ← save_data_obj X self d; ret tt) w) as [[[]|e1] w1] eqn:Hd.
  - apply bind_inv_ok in Hd as (r & w2 & Hd & Hret). apply ret_inv in Hret as [_ ->].
    destruct (IH _ H) as (pre & d' & post & w0 & -> & Hpre & Hfail).
    exists (d :: pre), d', post, w0. split; [reflexivity|].
    split; [econstructor; eassumption | exact Hfail].
  - injection H as <- <-. rewrite bind_run in Hd.
    destruct (save_data_obj X self d w) as [[r|e2] w2] eqn:Hd2.
    + discriminate.
    + injection Hd as <- <-. exists [], d, ds, w.
      split; [reflexivity|]. split; [constructor | exact Hd2].
Qed.

(** C5: [save] of an object with data objects saves them first, one after
    the other in the order of the collection. Only when all of them are
    saved, and so hold an identifier each, does [save] go on to its own
    row, which is serialized from the heap the data objects left and then
    written. If a data object fails, [save] stops there with its
    exception, and no row of the parent is written. *)
Theorem save_saves_data_objects_first X self obj o w r w' :
  heap w !! obj = Some (CObj o) ->
  data_objects o <> [] ->
  save X self obj w = (r, w') ->
  (exists w1,
      saved_in_order X self (data_objects o) w w1 /\
      Forall (has_id (heap w1)) (data_objects o) /\
      save_own_row X self obj w1 = (r, w') /\
      log w1 `prefix_of` log w' /\
      (forall i, r = Ok i ->
         exists o1 i1 w2,
           heap w1 !! obj = Some (CObj o1) /\
           add_row X self (as_dict X (heap w1) obj)
                   (match table_name o1 with Some t => t | None => type_str o1 end) w1
           = (Ok i1, w2) /\ i = Some i1)) \/
  (exists e pre d post w0,
      r = Raise e /\
      data_objects o = (pre ++ d :: post)%list /\
      saved_in_order X self pre w w0 /\
      save_data_obj X self d w0 = (Raise e, w')).
Proof.
  intros Ho Hne H. rewrite save_split in H.
  rewrite (bind_ok _ _ _ _ _ (get_obj_run _ _ _ Ho)) in H.
  rewrite bool_decide_eq_false_2 in H by exact Hne. simpl in H.
  rewrite bind_run in H.
  destruct (for_each (fun d => _ ← save_data_obj X self d; ret tt) (data_objects o) w)
    as [[[]|e] w1] eqn:Hc.
  - left. exists w1.
    pose proof (for_each_saved_in_order _ _ _ _ _ Hc) as Hsio.
    split; [exact Hsio|]. split; [exact (saved_in_order_ids _ _ _ _ _ Hsio)|].
    split; [exact H|]. split.
    + pose proof (stable_save_own_row log_grows X self obj w1) as Hl.
      rewrite H in Hl. exact Hl.
    + intros i ->. apply save_own_row_ok in H
        as (o1 & b & i1 & w2 & Ho1 & _ & Hadd & -> & _).
      exists o1, i1, w2. repeat split; assumption.
  - right. injection H as <- <-.
    destruct (for_each_raise _ _ _ _ _ _ Hc) as (pre & d & post & w0 & Hds & Hpre & Hd).
    exists e, pre, d, post, w0. repeat split; assumption.
Qed.

Lemma save_saves_data_objects_first_witness :
  (exists w1,
      saved_in_order Demo.extern 0 (data_objects Demo.parent_obj) Demo.family w1 /\
      Forall (has_id (heap w1)) (data_objects Demo.parent_obj) /\
      save_own_row Demo.extern 0 1 w1 = (Demo.family_saved.1, Demo.family_saved.2) /\
      log w1 `prefix_of` log Demo.family_saved.2 /\
      (forall i, Demo.family_saved.1 = Ok i ->
         exists o1 i1 w2,
           heap w1 !! 1%nat = Some (CObj o1) /\
           add_row Demo.extern 0 (as_dict Demo.extern (heap w1) 1)
                   (match table_name o1 with Some t => t | None => type_str o1 end) w1
           = (Ok i1, w2) /\ i = Some i1)) \/
  (exists e pre d post w0,
      Demo.family_saved.1 = Raise e /\
      data_objects Demo.parent_obj = (pre ++ d :: post)%list /\
      saved_in_order Demo.extern 0 pre Demo.family w0 /\
      save_data_obj Demo.extern 0 d w0 = (Raise e, Demo.family_saved.2)).
Proof.
  apply (save_saves_data_objects_first Demo.extern 0 1 Demo.parent_obj Demo.family).
  - vm_compute. reflexivity.
  - discriminate.
  - apply surjective_pairing.
Defined.

(** The run on [Demo.family]: the data objects get 5 and 10 in their
    tables, then the parent gets 1; the writes come in that order. *)
Example save_family :
  Demo.family_saved.1 = Ok (Some 1) /\
  filter (fun ev => is_write ev = true) (log Demo.family_saved.2)
  = [EvOpenWrite (mkPath "root/ta" "<built-in function id>_t..ix");
     EvNpSave (mkPath "root/ta" "5_t..npy");
     EvOpenWrite (mkPath "root/tb" "<built-in function id>_v..ix");
     EvNpSave (mkPath "root/tb" "10_v..npy");
     EvOpenWrite (mkPath "root/measurement" "<built-in function id>_m..ix")].
Proof. split; vm_compute; reflexivity. Qed.

(** ** Membership and row lookup *)

(** The identifiers a completed enumeration collects: those it started
    with and the integers that lead the names of the regular files. *)
Lemma id_list_loop_spec files : forall acc ids,
  id_list_loop files acc = Ok ids ->
  forall z, z ∈ ids <->
            z ∈ acc \/ exists e, e ∈ files /\ is_dir e = false /\
                                 PyStr.int (name_token e) = Some z.
Proof.
  induction files as [|file rest IH]; intros acc ids H z.
  - simpl in H. injection H as <-. split; [by left|].
    intros [Hz|(e & He & _)]; [exact Hz | by apply elem_of_nil in He].
  - simpl in H. destruct file as [n c|n]; simpl in H.
    + unfold int_r in H.
      change (PyStr.head_tok (PyStr.split "_"%char n))
        with (name_token (File n c)) in H.
      destruct (PyStr.int (name_token (File n c))) as [i|] eqn:Ei; simpl in H;
        [|discriminate].
      rewrite (IH _ _ H z), elem_of_app, list_elem_of_singleton. split.
      * intros [[Hz| ->]|(e & He & Hd & Hi)].
        -- by left.
        -- right. exists (File n c). split; [left|]. by split.
        -- right. exists e. split; [by right|]. by split.
      * intros [Hz|(e & He & Hd & Hi)]; [by left; left|].
        apply elem_of_cons in He as [->|He].
        -- left; right. congruence.
        -- right. exists e. by repeat split.
    + rewrite (IH _ _ H z). split.
      * intros [Hz|(e & He & Hd & Hi)]; [by left|].
        right. exists e. split; [by right|]. by split.
      * intros [Hz|(e & He & Hd & Hi)]; [by left|].
        apply elem_of_cons in He as [->|He]; [discriminate|].
        right. exists e. by repeat split.
Qed.

Lemma get_path_to_row_run self b table i files w :
  heap w !! self = Some (CBackend b) ->
  fs w !! path_join (directory b) table = Some files ->
  get_path_to_row self table i w
  = (Ok (List.find (row_matches b i)
           (List.map (fun e => mkPath (path_join (directory b) table) (ename e)) files)),
     logged w [EvIterdir (mkPath (directory b) table)]).
Proof.
  intros Hb Hf. unfold get_path_to_row.
  rewrite (bind_ok _ _ _ _ _ (get_backend_run _ _ _ Hb)).
  rewrite (bind_ok _ _ _ _ _ (fs_iterdir_run (mkPath _ _) _ _ Hf)).
  reflexivity.
Qed.

Lemma row_matches_true b i p :
  row_matches b i p = true <->
  id_from_path p = i /\ PyPath.suffix (pname p) = suffix b.
Proof.
  unfold row_matches. rewrite andb_true_iff, bool_decide_eq_true, String.eqb_eq.
  reflexivity.
Qed.

(** C6, as the code has it: in a table whose enumeration completes,
    [contains] answers whether some regular file has a NAME whose leading
    token is an integer equal to the identifier, whatever its extension;
    [get_path_to_row] finds a row exactly when some entry has a STEM whose
    leading token decodes to the identifier and the metadata extension. *)
Theorem contains_is_membership_in_id_list self b table files ids (i : Z) w :
  heap w !! self = Some (CBackend b) ->
  fs w !! path_join (directory b) table = Some files ->
  id_list_loop files [] = Ok ids ->
  ((contains self table (Some i) w).1 = Ok true <->
   exists e, e ∈ files /\ is_dir e = false /\ PyStr.int (name_token e) = Some i) /\
  ((exists p, (get_path_to_row self table (Some i) w).1 = Ok (Some p)) <->
   exists e, e ∈ files /\
             id_from_path (mkPath (path_join (directory b) table) (ename e)) = Some i /\
             PyPath.suffix (ename e) = suffix b).
Proof.
  intros Hb Hf Hids. split.
  - unfold contains. rewrite bind_run, (get_id_list_run _ _ _ _ _ Hb Hf), Hids. simpl.
    pose proof (id_list_loop_spec _ _ _ Hids i) as Hspec.
    split.
    + intros [= Hin]. apply bool_decide_eq_true in Hin.
      apply Hspec in Hin as [Hin|Hin]; [by apply elem_of_nil in Hin | exact Hin].
    + intros He. f_equal. apply bool_decide_eq_true, Hspec. by right.
  - rewrite (get_path_to_row_run _ _ _ _ _ _ Hb Hf). simpl. split.
    + intros (p & [= Hfind]). apply find_some in Hfind as [Hin Hm].
      apply in_map_iff in Hin as (e & <- & Hin).
      apply row_matches_true in Hm as [Hid Hs].
      exists e. split; [by apply list_elem_of_In|]. by split.
    + intros (e & He & Hid & Hs).
      destruct (List.find _ _) as [p|] eqn:Hfind; [by exists p|].
      exfalso.
      pose proof (find_none _ _ Hfind
                    (mkPath (path_join (directory b) table) (ename e))) as Hn.
      rewrite (proj2 (row_matches_true b (Some i) _)) in Hn by (by split).
      enough (false = true) by discriminate. symmetry. apply Hn.
      apply in_map_iff. exists e. split; [reflexivity | by apply list_elem_of_In].
Qed.

Lemma contains_is_membership_in_id_list_witness :
  ((contains 0 "series" (Some 3) Demo.payload_only).1 = Ok true <->
   exists e, e ∈ [File "3_x.npy" (Npy (VArr [7]))] /\ is_dir e = false /\
             PyStr.int (name_token e) = Some 3) /\
  ((exists p, (get_path_to_row 0 "series" (Some 3) Demo.payload_only).1 = Ok (Some p)) <->
   exists e, e ∈ [File "3_x.npy" (Npy (VArr [7]))] /\
             id_from_path (mkPath (path_join (directory Demo.store) "series") (ename e))
             = Some 3 /\
             PyPath.suffix (ename e) = suffix Demo.store).
Proof.
  apply (contains_is_membership_in_id_list 0 Demo.store "series"
           [File "3_x.npy" (Npy (VArr [7]))] [3] 3 Demo.payload_only);
    vm_compute; reflexivity.
Defined.

(** C6, as claimed, fails: a table that holds the payload [3_x.npy] and no
    metadata file contains 3, yet no row is found for 3. *)
Lemma contains_without_row :
  (contains 0 "series" (Some 3) Demo.payload_only).1 = Ok true /\
  (get_path_to_row 0 "series" (Some 3) Demo.payload_only).1 = Ok None.
Proof. split; vm_compute; reflexivity. Qed.

(** The other way round: a metadata file named [3.ix] is the row of 3 for
    [get_path_to_row], while [contains] raises on it. *)
Example row_without_contains :
  let w := mkWorld {[ "root/series" := [File "3.ix" (Raw "")] ]}
                   {[ 0%nat := CBackend Demo.store ]} [] in
  (get_path_to_row 0 "series" (Some 3) w).1 = Ok (Some (mkPath "root/series" "3.ix")) /\
  (contains 0 "series" (Some 3) w).1 = Raise ValueError.
Proof. split; vm_compute; reflexivity. Qed.

(** ** [load_obj_data] *)

(** Without a [data] attribute nothing is read: the world, log included,
    is the one [load_obj_data] started from. *)
Lemma load_obj_data_without_data self obj w :
  (hasattr_data obj w).1 = Ok false ->
  load_obj_data self obj w = (Ok VNone, w).
Proof.
  unfold load_obj_data, hasattr_data. rewrite !bind_run. simpl.
  intros [= ->]. reflexivity.
Qed.

(** A row without a payload file: [None] is returned. *)
Lemma load_obj_data_payload_missing self obj o b table files p q w :
  heap w !! obj = Some (CObj o) ->
  is_Some (data o) ->
  table_name o = Some table ->
  heap w !! self = Some (CBackend b) ->
  fs w !! path_join (directory b) table = Some files ->
  List.find (row_matches b (id o))
    (List.map (fun e => mkPath (path_join (directory b) table) (ename e)) files)
  = Some p ->
  with_suffix p (data_suffix b) = Ok q ->
  find_entry (pname q) files = None ->
  load_obj_data self obj w
  = (Ok VNone, logged w [EvIterdir (mkPath (directory b) table); EvNpLoad q]).
Proof.
  intros Ho Hd Ht Hb Hf Hfind Hq Hnone.
  assert (parent q = path_join (directory b) table) as Hpq.
  { apply find_some in Hfind as [Hin _].
    apply in_map_iff in Hin as (e & <- & _).
    unfold with_suffix in Hq. repeat case_match; try discriminate.
    by injection Hq as <-. }
  unfold load_obj_data, hasattr_data. mrun. rewrite Ho.
  rewrite (bool_decide_eq_true_2 _ Hd). simpl.
  rewrite (bind_ok _ _ _ _ _ (get_obj_run _ _ _ Ho)). rewrite Ht.
  rewrite (bind_ok _ _ _ _ _ (get_path_to_row_run _ _ _ _ _ _ Hb Hf)).
  rewrite Hfind. unfold try_except.
  rewrite (bind_ok _ _ _ b (logged w [EvIterdir (mkPath (directory b) table)]));
    [|by apply get_backend_run].
  unfold lift. rewrite bind_run, Hq. unfold np_load. mrun.
  rewrite Hpq, Hf, Hnone. simpl. unfold logged. simpl.
  by rewrite <- app_assoc.
Qed.

(** No row for the object: [get_path_to_row] returns [None], on which
    [with_suffix] is looked up. *)
Lemma load_obj_data_no_row self obj o b table files w :
  heap w !! obj = Some (CObj o) ->
  is_Some (data o) ->
  table_name o = Some table ->
  heap w !! self = Some (CBackend b) ->
  fs w !! path_join (directory b) table = Some files ->
  List.find (row_matches b (id o))
    (List.map (fun e => mkPath (path_join (directory b) table) (ename e)) files)
  = None ->
  load_obj_data self obj w
  = (Raise AttributeError, logged w [EvIterdir (mkPath (directory b) table)]).
Proof.
  intros Ho Hd Ht Hb Hf Hfind.
  unfold load_obj_data, hasattr_data. mrun. rewrite Ho.
  rewrite (bool_decide_eq_true_2 _ Hd). simpl.
  rewrite (bind_ok _ _ _ _ _ (get_obj_run _ _ _ Ho)). rewrite Ht.
  rewrite (bind_ok _ _ _ _ _ (get_path_to_row_run _ _ _ _ _ _ Hb Hf)).
  rewrite Hfind. reflexivity.
Qed.

(** C9: an object that has a [data] attribute and was never saved makes
    [load_obj_data] raise: [AttributeError] when its table has no row for
    it, [FileNotFoundError] when its table has no directory yet. *)
Theorem load_obj_data_unsaved_object_raises :
  (load_obj_data 0 1 Demo.unsaved_data).1 = Raise AttributeError /\
  (load_obj_data 0 1 Demo.no_table).1 = Raise FileNotFoundError.
Proof. split; vm_compute; reflexivity. Qed.

Example load_obj_data_no_data_attribute :
  load_obj_data 0 1 Demo.one_row = (Ok VNone, Demo.one_row).
Proof. apply load_obj_data_without_data. reflexivity. Qed.

Example load_obj_data_metadata_only :
  let w := mkWorld {[ "root/series" := [Demo.row "3_x.ix"] ]} (heap Demo.bound) [] in
  (load_obj_data 0 1 w).1 = Ok VNone.
Proof. vm_compute. reflexivity. Qed.

Example load_obj_data_payload :
  (load_obj_data 0 1 Demo.bound).1 = Ok (VArr [7]).
Proof. vm_compute. reflexivity. Qed.

(** ** What a written row does to its table *)

Lemma put_file_in n c l : File n c ∈ put_file n c l.
Proof.
  induction l as [|e r IH]; simpl; [left|].
  destruct (String.eqb (ename e) n); [left | right; exact IH].
Qed.

Lemma write_json_inv p d w u w' :
  write_json p d w = (Ok u, w') ->
  exists l,
    fs w !! parent p = Some l /\
    w' = mkWorld (<[parent p := put_file (pname p) (Json d) l]> (fs w))
                 (heap w) (log w ++ [EvOpenWrite p])%list.
Proof.
  unfold write_json. mrun.
  destruct (fs w !! parent p) as [l|]; [|discriminate].
  intros H. exists l. split; [reflexivity|].
  destruct (PyStr.has_char "/"%char (pname p)); [discriminate|].
  destruct (find_entry (pname p) l) as [[? ?|?]|]; try discriminate;
    destruct (json_serializable d); try discriminate;
    revert H; mrun; by intros [= _ <-].
Qed.

(** A successful [add_row]: the file it leaves in the table is named after
    the builtin [id], whatever identifier it returns. *)
Lemma add_row_ok X self d table w i w' :
  add_row X self d table w = (Ok i, w') ->
  exists b nm l,
    heap w' !! self = Some (CBackend b) /\
    d !! "name" = Some nm /\
    fs w' !! path_join (directory b) table = Some l /\
    File (BUILTIN_ID +:+ "_" +:+ fmt X nm +:+ "." +:+ suffix b) (Json d) ∈ l.
Proof.
  intros H. unfold add_row in H.
  apply bind_inv_ok in H as (b & w0 & Hb & H). apply get_backend_inv in Hb as [Hb ->].
  apply bind_inv_ok in H as (ex & w1 & Hex & H).
  apply bind_inv_ok in H as (u & w2 & Hmk & H).
  apply bind_inv_ok in H as (i' & w3 & Hnext & H).
  apply bind_inv_ok in H as (nm0 & w4 & Hnm & H).
  unfold lift, getitem in Hnm.
  destruct (d !! "name") as [nm|] eqn:Ed; [|discriminate].
  injection Hnm as <- <-.
  apply bind_inv_ok in H as (b2 & w5 & Hb2 & H). apply get_backend_inv in Hb2 as [Hb2 ->].
  apply bind_inv_ok in H as (u2 & w6 & Hwr & H).
  apply ret_inv in H as [-> ->].
  apply write_json_inv in Hwr as (l & Hl & ->). simpl in *.
  assert (heap w3 = heap w) as Hheap.
  { pose proof (stable_fs_exists heap_same (mkPath (directory b) table) w) as H1.
    rewrite Hex in H1.
    assert (heap w2 = heap w1) as H2.
    { destruct ex; simpl in Hmk.
      - by apply ret_inv in Hmk as [_ ->].
      - pose proof (stable_fs_mkdir heap_same (mkPath (directory b) table) w1) as H2.
        by rewrite Hmk in H2. }
    pose proof (stable_get_next_available_id heap_same self table w2) as H3.
    rewrite Hnext in H3. unfold heap_same in *. simpl in *. congruence. }
  assert (b2 = b) as -> by congruence.
  exists b, nm, (put_file (BUILTIN_ID +:+ "_" +:+ fmt X nm +:+ "." +:+ suffix b) (Json d) l).
  split; [exact Hb2|]. split; [reflexivity|].
  split; [apply lookup_insert_eq | apply put_file_in].
Qed.

(** Once [add_row] has written a row, the table can no longer be
    enumerated: [get_id_list], and with it [contains] and the next
    [add_row], raise [ValueError]. *)
Lemma add_row_stops_enumeration X self d table w i w' :
  add_row X self d table w = (Ok i, w') ->
  (get_id_list self table w').1 = Raise ValueError.
Proof.
  intros H. apply add_row_ok in H as (b & nm & l & Hb & _ & Hl & Hin).
  rewrite (get_id_list_run _ _ _ _ _ Hb Hl). simpl.
  apply id_list_loop_raises. eexists. split; [exact Hin|]. split; [reflexivity|].
  unfold name_token. simpl ename. rewrite add_row_file_name_token. reflexivity.
Qed.

(** ** Decimal identifiers *)





(** A printed number is made of plain characters. *)
Lemma plain_uint u : plain (NilEmpty.string_of_uint u) = true.
Proof. induction u; simpl; [reflexivity|..]; exact IHu. Qed.

Lemma plain_nilzero_uint u : plain (NilZero.string_of_uint u) = true.
Proof. destruct u; [reflexivity|..]; apply plain_uint. Qed.

Lemma plain_of_int i : plain (PyStr.of_int i) = true.
Proof.
  unfold PyStr.of_int, NilZero.string_of_int.
  destruct (Z.to_int i) as [u|u]; [apply plain_nilzero_uint|].
  cbn [plain]. rewrite plain_nilzero_uint. reflexivity.
Qed.


Lemma plain_no_char s :
  plain s = true ->
  PyStr.has_char "_"%char s = false /\ PyStr.has_char "."%char s = false.
Proof.
  induction s as [|c r IH]; [by split|]. simpl. unfold plain_char.
  rewrite !andb_true_iff, !negb_true_iff. intros [[[_ H1] H2] Hr].
  destruct (IH Hr) as [I1 I2]. rewrite H1, H2. by split.
Qed.


(** ** Encoded file names *)

Lemma head_tok_prefix a t :
  PyStr.has_char "_"%char a = false ->
  PyStr.head_tok (PyStr.split "_"%char (a +:+ String "_"%char t)) = a.
Proof.
  induction a as [|c a IH]; simpl; [reflexivity|].
  intros H. apply orb_false_iff in H as [Hc Ha]. rewrite Hc.
  specialize (IH Ha).
  destruct (PyStr.split "_"%char (a +:+ String "_"%char t)) as [|x xs];
    simpl in *; congruence.
Qed.


Lemma split_no_sep s :
  PyStr.has_char "_"%char s = false -> PyStr.split "_"%char s = [s].
Proof.
  induction s as [|c s IH]; simpl; [reflexivity|].
  intros H. apply orb_false_iff in H as [Hc Hs]. rewrite Hc, (IH Hs). reflexivity.
Qed.

Lemma rfind_none c s : PyStr.has_char c s = false -> PyStr.rfind c s = None.
Proof.
  induction s as [|a s IH]; simpl; [reflexivity|].
  intros H. apply orb_false_iff in H as [Ha Hs]. rewrite (IH Hs), Ha. reflexivity.
Qed.

Lemma rfind_app c a s :
  PyStr.has_char c a = false ->
  PyStr.rfind c (a +:+ s) = (fun i => (String.length a + i)%nat) <$> PyStr.rfind c s.
Proof.
  induction a as [|x a IH]; simpl.
  - intros _. change ("" +:+ s) with s. destruct (PyStr.rfind c s); reflexivity.
  - intros H. apply orb_false_iff in H as [Hx Ha]. rewrite (IH Ha).
    destruct (PyStr.rfind c s); simpl; [reflexivity|]. rewrite Hx. reflexivity.
Qed.

Lemma rfind_last c s e :
  PyStr.has_char c e = false ->
  PyStr.rfind c (s +:+ String c e) = Some (String.length s).
Proof.
  intros He. induction s as [|x s IH]; simpl.
  - rewrite (rfind_none _ _ He), Ascii.eqb_refl. reflexivity.
  - rewrite IH. reflexivity.
Qed.

Lemma substring_app a n s :
  String.substring 0 (String.length a + n) (a +:+ s) = a +:+ String.substring 0 n s.
Proof. induction a as [|x a IH]; simpl; [reflexivity|]. by rewrite IH. Qed.

Lemma substring_all s : String.substring 0 (String.length s) s = s.
Proof. induction s as [|x s IH]; simpl; [reflexivity|]. by rewrite IH. Qed.


Lemma length_app s t :
  String.length (s +:+ t) = (String.length s + String.length t)%nat.
Proof. induction s as [|x s IH]; simpl; [reflexivity|]. by rewrite IH. Qed.

(** The stem of a name that starts with a dot-free token and an underscore
    starts with them too. *)
Lemma stem_keeps_prefix a rest :
  PyStr.has_char "."%char a = false ->
  exists t, PyPath.stem (a +:+ String "_"%char rest) = a +:+ String "_"%char t.
Proof.
  intros Ha. unfold PyPath.stem, PyPath.suffix_dot.
  rewrite (rfind_app _ _ _ Ha). simpl PyStr.rfind.
  destruct (PyStr.rfind "."%char rest) as [j|]; simpl; [|by exists rest].
  destruct (_ && _); [|by exists rest].
  exists (String.substring 0 j rest).
  rewrite substring_app. reflexivity.
Qed.

(** A path named after a token free of underscores and dots, followed by
    an underscore and anything, decodes to what [int] makes of the
    token. *)
Lemma id_from_path_prefix d a rest :
  PyStr.has_char "_"%char a = false ->
  PyStr.has_char "."%char a = false ->
  id_from_path (mkPath d (a +:+ String "_"%char rest)) = PyStr.int a.
Proof.
  intros H1 H2. unfold id_from_path. simpl pname.
  destruct (stem_keeps_prefix a rest H2) as [t ->].
  by rewrite head_tok_prefix.
Qed.

Lemma id_from_path_plain_name d a :
  PyStr.has_char "_"%char a = false ->
  PyStr.has_char "."%char a = false ->
  id_from_path (mkPath d a) = PyStr.int a.
Proof.
  intros H1 H2. unfold id_from_path, PyPath.stem, PyPath.suffix_dot. simpl pname.
  rewrite (rfind_none _ _ H2), (split_no_sep _ H1). reflexivity.
Qed.

Lemma append_assoc s t u : (s +:+ t) +:+ u = s +:+ (t +:+ u).
Proof.
  induction s as [|x s IH]; [reflexivity|].
  change (String x ((s +:+ t) +:+ u) = String x (s +:+ (t +:+ u))).
  by rewrite IH.
Qed.





(** ** [get_id_list], declaratively *)

Lemma id_list_loop_omap files : forall acc,
  id_list_loop files acc
  = if all_decodable files then Ok (acc ++ omap entry_id files)%list
    else Raise ValueError.
Proof.
  induction files as [|file rest IH]; intros acc.
  - simpl. by rewrite app_nil_r.
  - destruct file as [n c|n].
    + assert (omap entry_id (File n c :: rest)
              = match PyStr.int (name_token (File n c)) with
                | Some i => i :: omap entry_id rest
                | None => omap entry_id rest
                end) as -> by reflexivity.
      cbn [id_list_loop is_dir negb all_decodable forallb orb].
      change (PyStr.head_tok (PyStr.split "_"%char (ename (File n c))))
        with (name_token (File n c)).
      change (forallb _ rest) with (all_decodable rest).
      unfold int_r. destruct (PyStr.int (name_token (File n c))) as [i|] eqn:Ei.
      * cbn [except_pass]. rewrite IH.
        rewrite bool_decide_eq_true_2 by eauto. cbn [andb].
        destruct (all_decodable rest); [|reflexivity].
        by rewrite <- app_assoc.
      * rewrite bool_decide_eq_false_2 by (intros [? ?]; discriminate).
        reflexivity.
    + change (omap entry_id (Dir n :: rest)) with (omap entry_id rest).
      cbn [id_list_loop is_dir negb all_decodable forallb orb andb].
      apply IH.
Qed.

(** X3: on an existing table directory [get_id_list] either returns, in
    the order of the listing, the integer that leads the name of each
    regular file (sub-directories skipped, duplicates kept), or, as soon as
    one regular file has a leading token that is no integer, raises
    [ValueError]; the directory is read once and nothing is changed. *)
Theorem get_id_list_listing self b table files w :
  heap w !! self = Some (CBackend b) ->
  fs w !! path_join (directory b) table = Some files ->
  get_id_list self table w
  = (if all_decodable files then Ok (omap entry_id files) else Raise ValueError,
     logged w [EvIterdir (mkPath (directory b) table)]).
Proof.
  intros Hb Hf. rewrite (get_id_list_run _ _ _ _ _ Hb Hf).
  rewrite id_list_loop_omap. reflexivity.
Qed.

Lemma get_id_list_listing_witness :
  get_id_list 0 "series" Demo.bound
  = (if all_decodable [Demo.row "3_x.ix"; File "3_x.npy" (Npy (VArr [7]))]
     then Ok (omap entry_id [Demo.row "3_x.ix"; File "3_x.npy" (Npy (VArr [7]))])
     else Raise ValueError,
     logged Demo.bound [EvIterdir (mkPath (directory Demo.store) "series")]).
Proof.
  apply (get_id_list_listing 0 Demo.store "series" _ Demo.bound);
    vm_compute; reflexivity.
Defined.

(** ** [add_row], step by step *)

Lemma fs_exists_run p w :
  fs_exists p w = (Ok (path_exists (fs w) p), logged w [EvExists p]).
Proof. reflexivity. Qed.

Lemma fs_iterdir_none p w :
  fs w !! path_str p = None ->
  exists e, fs_iterdir p w = (Raise e, logged w [EvIterdir p]).
Proof.
  intros H. unfold fs_iterdir. mrun. rewrite H.
  destruct (fs w !! parent p) as [l|]; [|by eexists].
  destruct (is_file_in (pname p) l); by eexists.
Qed.

Lemma get_id_list_no_directory self table w :
  (forall b, heap w !! self = Some (CBackend b) ->
             fs w !! path_join (directory b) table = None) ->
  forall ids w', get_id_list self table w <> (Ok ids, w').
Proof.
  intros Hnone ids w' H. unfold get_id_list in H.
  apply bind_inv_ok in H as (b & w0 & Hb & H). apply get_backend_inv in Hb as [Hb ->].
  apply bind_inv_ok in H as (files & w1 & Hit & _).
  destruct (fs_iterdir_none (mkPath (directory b) table) w (Hnone b Hb)) as [e He].
  congruence.
Qed.

Lemma py_max_spec ids m :
  py_max ids = Ok m -> m ∈ ids /\ forall z, z ∈ ids -> z <= m.
Proof.
  destruct ids as [|x r]; [discriminate|]. simpl. intros [= <-].
  revert x. induction r as [|y r IH]; intros x; simpl.
  - split; [left|]. intros z Hz. apply list_elem_of_singleton in Hz. lia.
  - destruct (IH (Z.max x y)) as [Hin Hle]. split.
    + apply elem_of_cons in Hin as [Heq|Hin]; [|by right; right].
      rewrite Heq. destruct (Z.max_spec x y) as [[_ ->]|[_ ->]]; [right; left | left].
    + intros z Hz. apply elem_of_cons in Hz as [->|Hz].
      * etransitivity; [|apply Hle; left]. lia.
      * apply elem_of_cons in Hz as [->|Hz].
        -- etransitivity; [|apply Hle; left]. lia.
        -- apply Hle. by right.
Qed.

(** A successful [add_row], read backwards: the table directory was there
    and every regular file in it decoded; the identifier returned is one
    more than the largest; and the world afterwards is the one before with
    one file put into that one listing and three accesses logged. *)
Lemma add_row_inv X self d table w i w' :
  add_row X self d table w = (Ok i, w') ->
  exists b nm files m,
    heap w !! self = Some (CBackend b) /\
    d !! "name" = Some nm /\
    fs w !! path_join (directory b) table = Some files /\
    all_decodable files = true /\
    py_max (omap entry_id files) = Ok m /\
    i = m + 1 /\
    w' = mkWorld
           (<[path_join (directory b) table
              := put_file (row_file_name X b nm) (Json d) files]> (fs w))
           (heap w)
           (log w ++ [EvExists (mkPath (directory b) table);
                      EvIterdir (mkPath (directory b) table);
                      EvOpenWrite (mkPath (path_join (directory b) table)
                                          (row_file_name X b nm))])%list.
Proof.
  intros H. unfold add_row in H.
  apply bind_inv_ok in H as (b & w0 & Hb & H). apply get_backend_inv in Hb as [Hb ->].
  rewrite bind_run, fs_exists_run in H.
  set (p := mkPath (directory b) table) in *.
  apply bind_inv_ok in H as (u & w2 & Hmk & H).
  apply bind_inv_ok in H as (i0 & w3 & Hnext & H).
  assert (exists files, fs w !! path_join (directory b) table = Some files /\
                        w2 = logged w [EvExists p]) as (files & Hf & ->).
  { destruct (path_exists (fs w) p) eqn:Ex; simpl in Hmk.
    - apply ret_inv in Hmk as [_ ->].
      destruct (fs w !! path_join (directory b) table) as [files|] eqn:Ef; [eauto|].
      exfalso. unfold get_next_available_id in Hnext.
      apply bind_inv_ok in Hnext as (ids & w4 & Hids & _).
      revert Hids. apply get_id_list_no_directory. intros b' Hb'. simpl in Hb'.
      simpl. congruence.
    - exfalso. unfold fs_mkdir in Hmk. revert Hmk. mrun.
      destruct (fs w !! directory b) as [l|] eqn:El; [|discriminate].
      unfold put_fs. simpl. intros [= _ <-].
      erewrite get_next_available_id_run in Hnext;
        [| exact Hb | apply lookup_insert_eq].
      discriminate. }
  erewrite get_next_available_id_run in Hnext; [| exact Hb | exact Hf].
  rewrite id_list_loop_omap in Hnext.
  destruct (all_decodable files) eqn:Hall; [|discriminate]. simpl in Hnext.
  destruct (py_max (omap entry_id files)) as [m|] eqn:Hm; [|discriminate].
  injection Hnext as <- <-.
  apply bind_inv_ok in H as (nm0 & w4 & Hnm & H).
  unfold lift, getitem in Hnm.
  destruct (d !! "name") as [nm|] eqn:Ed; [|discriminate].
  injection Hnm as <- <-.
  apply bind_inv_ok in H as (b2 & w5 & Hb2 & H). apply get_backend_inv in Hb2 as [Hb2 ->].
  simpl in Hb2. assert (b2 = b) as -> by congruence.
  apply bind_inv_ok in H as (u2 & w6 & Hwr & H).
  apply ret_inv in H as [-> ->].
  apply write_json_inv in Hwr as (l & Hl & ->). simpl in Hl.
  change (path_str p) with (path_join (directory b) table) in *.
  assert (l = files) as -> by congruence.
  exists b, nm, files, m. repeat split; try assumption.
  unfold logged. simpl. rewrite <- !app_assoc. reflexivity.
Qed.

(** [add_row] on a table whose directory exists: the scan, then the
    lookup of the name and the write. *)
Lemma add_row_on_table X self b table files d w :
  heap w !! self = Some (CBackend b) ->
  fs w !! path_join (directory b) table = Some files ->
  add_row X self d table w
  = (i ← lift (next_id_of files);
     nm ← lift (getitem d "name");
     _ ← write_json (mkPath (path_join (directory b) table) (row_file_name X b nm)) d;
     ret i)
      (logged w [EvExists (mkPath (directory b) table);
                 EvIterdir (mkPath (directory b) table)]).
Proof.
  intros Hb Hf. unfold add_row.
  rewrite (bind_ok _ _ _ _ _ (get_backend_run _ _ _ Hb)).
  rewrite bind_run, fs_exists_run.
  assert (path_exists (fs w) (mkPath (directory b) table) = true) as ->.
  { unfold path_exists. change (path_str (mkPath (directory b) table))
      with (path_join (directory b) table). by rewrite Hf. }
  simpl negb. cbv iota. rewrite (bind_run (ret tt)). cbn [ret].
  rewrite bind_run.
  erewrite get_next_available_id_run; [| exact Hb | exact Hf].
  rewrite id_list_loop_omap. rewrite (bind_run (lift _)). unfold lift at 1.
  unfold next_id_of, logged. simpl log. rewrite <- app_assoc. simpl app.
  destruct (all_decodable files); [|reflexivity].
  destruct (py_max (omap entry_id files)) as [m|e]; [|reflexivity].
  rewrite !bind_run. unfold lift.
  destruct (getitem d "name") as [nm|e]; [|reflexivity].
  match goal with
  | |- (get_backend self ≫= _) ?W = _ =>
      rewrite (bind_ok _ _ W b W) by (apply get_backend_run; exact Hb)
  end.
  reflexivity.
Qed.

(** X4: the identifier [add_row] returns is new to the table: it is
    greater than the integer leading the name of every regular file that
    was in the table directory, and exactly one more than the largest of
    them. *)
Theorem add_row_returns_fresh_id X self d table w i w' :
  add_row X self d table w = (Ok i, w') ->
  exists b files,
    heap w !! self = Some (CBackend b) /\
    fs w !! path_join (directory b) table = Some files /\
    (forall e z, e ∈ files -> entry_id e = Some z -> z < i) /\
    (exists e, e ∈ files /\ entry_id e = Some (i - 1)).
Proof.
  intros H. apply add_row_inv in H as (b & nm & files & m & Hb & _ & Hf & _ & Hm & -> & _).
  exists b, files. split; [exact Hb|]. split; [exact Hf|].
  apply py_max_spec in Hm as [Hin Hle]. split.
  - intros e z He Hz. enough (z <= m) by lia.
    apply Hle, list_elem_of_omap. eauto.
  - apply list_elem_of_omap in Hin as (e & He & Hz).
    exists e. split; [exact He|]. rewrite Hz. f_equal. lia.
Qed.



(** X7: a mapping without a [name] cannot be written: on a table that
    scans and has a largest identifier, [add_row] raises [KeyError] after
    the scan and writes nothing. *)
Theorem add_row_without_name X self b table files m d w :
  heap w !! self = Some (CBackend b) ->
  fs w !! path_join (directory b) table = Some files ->
  all_decodable files = true ->
  py_max (omap entry_id files) = Ok m ->
  d !! "name" = None ->
  add_row X self d table w
  = (Raise KeyError,
     logged w [EvExists (mkPath (directory b) table);
               EvIterdir (mkPath (directory b) table)]).
Proof.
  intros Hb Hf Hall Hm Hd. rewrite (add_row_on_table X self b table files d w Hb Hf).
  unfold next_id_of. rewrite Hall, Hm. rewrite !bind_run. unfold lift, getitem.
  rewrite Hd. reflexivity.
Qed.


(** A name with a separator, as the names of data series often are: the
    row file would lie in a directory that is not there, the open fails and
    nothing is written. *)
Example add_row_name_with_separator :
  let d : gmap string pyval := {[ "name" := VStr "Ewe/V" ]} in
  (add_row Demo.extern 0 d "series" Demo.one_row).1 = Raise FileNotFoundError /\
  fs (add_row Demo.extern 0 d "series" Demo.one_row).2 = fs Demo.one_row.
Proof. split; vm_compute; reflexivity. Qed.

(** ** Tables without a directory, and rows in listing order *)

(** X9: on a table that has no directory neither [contains] answers
    [False] nor [get_path_to_row] returns [None]: both raise the error of
    [iterdir] ([FileNotFoundError], or [NotADirectoryError] when the table
    name is that of a regular file) and change nothing. *)
Theorem lookups_without_directory_raise self b table i w :
  heap w !! self = Some (CBackend b) ->
  fs w !! path_join (directory b) table = None ->
  exists e,
    (e = FileNotFoundError \/ e = NotADirectoryError) /\
    contains self table i w
    = (Raise e, logged w [EvIterdir (mkPath (directory b) table)]) /\
    get_path_to_row self table i w
    = (Raise e, logged w [EvIterdir (mkPath (directory b) table)]).
Proof.
  intros Hb Hf.
  assert (exists e, (e = FileNotFoundError \/ e = NotADirectoryError) /\
                    fs_iterdir (mkPath (directory b) table) w
                    = (Raise e, logged w [EvIterdir (mkPath (directory b) table)]))
    as (e & He & Hit).
  { unfold fs_iterdir. mrun.
    change (path_str (mkPath (directory b) table)) with (path_join (directory b) table).
    rewrite Hf. destruct (fs w !! directory b) as [l|]; [|eauto].
    destruct (is_file_in table l); eauto. }
  exists e. split; [exact He|]. split.
  - unfold contains, get_id_list.
    apply bind_raise. rewrite (bind_ok _ _ _ _ _ (get_backend_run _ _ _ Hb)).
    apply bind_raise. exact Hit.
  - unfold get_path_to_row.
    rewrite (bind_ok _ _ _ _ _ (get_backend_run _ _ _ Hb)).
    apply bind_raise. exact Hit.
Qed.

Lemma find_first {A} (f : A -> bool) l x :
  List.find f l = Some x ->
  exists pre post,
    l = (pre ++ x :: post)%list /\ f x = true /\ Forall (fun y => f y = false) pre.
Proof.
  induction l as [|y l IH]; simpl; [discriminate|].
  destruct (f y) eqn:Ey.
  - intros [= ->]. exists [], l. by repeat split.
  - intros H. destruct (IH H) as (pre & post & -> & Hx & Hpre).
    exists (y :: pre), post. repeat split; [exact Hx | by constructor].
Qed.

(** X10: the row [get_path_to_row] returns is the first entry of the
    listing, in the order [iterdir] yields it, whose stem decodes to the
    identifier asked for and whose extension is the store's [suffix]: no
    entry before it passes the filter. It is a path inside the table
    directory. *)
Theorem get_path_to_row_first_match self b table files i p w :
  heap w !! self = Some (CBackend b) ->
  fs w !! path_join (directory b) table = Some files ->
  (get_path_to_row self table i w).1 = Ok (Some p) ->
  exists pre e post,
    files = (pre ++ e :: post)%list /\
    p = mkPath (path_join (directory b) table) (ename e) /\
    id_from_path p = i /\
    PyPath.suffix (ename e) = suffix b /\
    Forall (fun e' => row_matches b i (mkPath (path_join (directory b) table) (ename e'))
                      = false) pre.
Proof.
  intros Hb Hf. rewrite (get_path_to_row_run _ _ _ _ _ _ Hb Hf). simpl.
  intros [= H]. apply find_first in H as (pre & post & Hl & Hm & Hpre).
  apply row_matches_true in Hm as [Hid Hs].
  apply map_eq_app in Hl as (fpre & frest & -> & Hfpre & Hrest).
  apply map_eq_cons in Hrest as (e & fpost & -> & He & Hpost).
  exists fpre, e, fpost. subst p. repeat split; try assumption.
  subst pre. apply Forall_map in Hpre. exact Hpre.
Qed.

(** ** Comparing stores *)

(** A store compared with itself. *)
Lemma backend_eq_self_run X self b w :
  heap w !! self = Some (CBackend b) ->
  backend_eq X (Some self) self w = (Ok true, w).
Proof. intros Hb. unfold backend_eq. mrun. rewrite Hb. by rewrite decide_True. Qed.

(** X11: comparing the store with itself, with [None] or with an object
    that is no store is decided without any access to the directory
    tree: the first is [True], the others are [False]. *)
Theorem backend_eq_without_access X self b w :
  heap w !! self = Some (CBackend b) ->
  backend_eq X (Some self) self w = (Ok true, w) /\
  backend_eq X None self w = (Ok false, w) /\
  (forall a o, heap w !! a = Some (CObj o) ->
               backend_eq X (Some a) self w = (Ok false, w)).
Proof.
  intros Hb. split; [exact (backend_eq_self_run X self b w Hb)|]. split.
  - reflexivity.
  - intros a o Ha. unfold backend_eq. mrun. by rewrite Ha.
Qed.

(** Take the steps of a run down to the primitives. *)
Ltac mrun_all :=
  repeat first
    [ rewrite bind_run
    | progress cbv beta delta [ret raise lift emit get_fs get_heap put_fs put_heap]
    | progress simpl ].

(** Comparing two distinct store instances. *)
Lemma backend_eq_distinct_run X a self xb sb w :
  heap w !! a = Some (CBackend xb) ->
  heap w !! self = Some (CBackend sb) ->
  self <> a ->
  backend_eq X (Some a) self w
  = if negb (String.eqb (resolve X (directory sb)) (resolve X (directory xb)))
    then (Ok false, logged w [EvResolve (directory sb); EvResolve (directory xb)])
    else match fs w !! directory sb, fs w !! directory xb with
         | Some _, Some _ =>
             (Ok (bool_decide (stat_of X (directory sb) = stat_of X (directory xb))),
              logged w [EvResolve (directory sb); EvResolve (directory xb);
                        EvLstat (directory sb); EvLstat (directory xb)])
         | Some _, None =>
             (Raise FileNotFoundError,
              logged w [EvResolve (directory sb); EvResolve (directory xb);
                        EvLstat (directory sb); EvLstat (directory xb)])
         | None, _ =>
             (Raise FileNotFoundError,
              logged w [EvResolve (directory sb); EvResolve (directory xb);
                        EvLstat (directory sb)])
         end.
Proof.
  intros Ha Hs Hne. unfold backend_eq. mrun. rewrite Ha.
  rewrite decide_False by exact Hne.
  rewrite (bind_ok _ _ _ _ _ (get_backend_run _ _ _ Hs)).
  unfold fs_resolve, fs_lstat, logged. mrun_all.
  destruct (String.eqb (resolve X (directory sb)) (resolve X (directory xb)));
    mrun_all; [|by rewrite <- !app_assoc].
  destruct (fs w !! directory sb); mrun_all; [|by rewrite <- !app_assoc].
  destruct (fs w !! directory xb); mrun_all; by rewrite <- !app_assoc.
Qed.


(** X13: two distinct store instances constructed on the same directory
    compare equal as long as that directory exists. *)
Theorem backend_eq_same_directory X a self xb sb l w :
  heap w !! a = Some (CBackend xb) ->
  heap w !! self = Some (CBackend sb) ->
  self <> a ->
  directory xb = directory sb ->
  fs w !! directory sb = Some l ->
  (backend_eq X (Some a) self w).1 = Ok true.
Proof.
  intros Ha Hs Hne Hd Hl.
  rewrite (backend_eq_distinct_run X a self xb sb w Ha Hs Hne).
  rewrite Hd, String.eqb_refl, Hl. simpl. by rewrite bool_decide_eq_true_2.
Qed.

(** ** [save_data_obj], read backwards *)

Lemma np_save_inv p v w u w' :
  np_save p v w = (Ok u, w') ->
  exists l,
    fs w !! parent p = Some l /\
    w' = mkWorld (<[parent p := put_file (npy_name (pname p)) (Npy v) l]> (fs w))
                 (heap w)
                 (log w ++ [EvNpSave (mkPath (parent p) (npy_name (pname p)))])%list.
Proof.
  unfold np_save. mrun.
  destruct (fs w !! parent p) as [l|]; [|discriminate].
  intros H. exists l. split; [reflexivity|].
  destruct (PyStr.has_char "/"%char (npy_name (pname p))); [discriminate|].
  destruct (find_entry (npy_name (pname p)) l) as [[? ?|?]|]; try discriminate;
    revert H; mrun_all; by intros [= _ <-].
Qed.

(** The result of an operation that only reads, and the world it leaves,
    written out. *)
Lemma reads_only_run {A} (m : M A) w :
  reads_only m ->
  exists evs, no_write evs = true /\ m w = ((m w).1, logged w evs).
Proof.
  intros Hm. destruct (Hm (fs w) (heap w)) as (r & evs & Hw & Hrun).
  exists evs. split; [exact Hw|].
  destruct w as [f h l]. simpl in *. by rewrite Hrun.
Qed.

Lemma reads_only_relog {A} (m : M A) w evs :
  reads_only m -> (m (logged w evs)).1 = (m w).1.
Proof.
  intros Hm. destruct (Hm (fs w) (heap w)) as (r & evs' & _ & Hrun).
  destruct w as [f h l]. unfold logged. simpl in *. by rewrite !Hrun.
Qed.

(** A successful [save_data_obj]: either the early return, after which
    directory tree and heap are as before, or a new row: the mapping with
    its data replaced by [None] goes through [add_row], the object is given
    the identifier and the store, and the data goes to [np.save]. *)
Lemma save_data_obj_inv X self d w r w1 :
  save_data_obj X self d w = (Ok r, w1) ->
  exists o table i,
    heap w !! d = Some (CObj o) /\ table_name o = Some table /\ r = Some i /\
    ((id o = Some i /\ (backend_eq X (backend o) self w).1 = Ok true /\
      fs w1 = fs w /\ heap w1 = heap w) \/
     exists b dat nm files,
       heap w !! self = Some (CBackend b) /\
       as_dict X (heap w) d !! "data" = Some dat /\
       (<["data" := VNone]> (as_dict X (heap w) d)) !! "name" = Some nm /\
       fs w !! path_join (directory b) table = Some files /\
       (all_decodable files = true /\
        forall e z, e ∈ files -> entry_id e = Some z -> z < i) /\
       heap w1 = <[d := CObj (set_backend (Some self) (set_id (Some i) o))]> (heap w) /\
       fs w1 = <[path_join (directory b) table
                 := put_file (npy_name (data_file_name X b i (name o))) (Npy dat)
                      (put_file (row_file_name X b nm)
                         (Json (<["data" := VNone]> (as_dict X (heap w) d))) files)]>
                 (fs w)).
Proof.
  intros H. unfold save_data_obj in H.
  apply bind_inv_ok in H as (o & w0 & Ho & H). apply get_obj_inv in Ho as [Ho ->].
  destruct (table_name o) as [table|] eqn:Ht; [|discriminate].
  apply bind_inv_ok in H as (same & w2 & Hsame & H).
  destruct (reads_only_run _ w (reads_only_backend_eq X (backend o) self))
    as (evs1 & _ & Hrun1).
  rewrite Hsame in Hrun1. simpl in Hrun1. injection Hrun1 as ->.
  apply bind_inv_ok in H as (found & w3 & Hfound & H).
  assert (exists evs2, w3 = logged w evs2 /\
                       (found = true -> same = true /\ exists z, id o = Some z))
    as (evs2 & -> & Hfd).
  { destruct same.
    - destruct (reads_only_run _ (logged w evs1)
                  (reads_only_contains self table (id o))) as (evs2 & _ & Hrun2).
      rewrite Hfound in Hrun2. simpl in Hrun2. injection Hrun2 as ->.
      exists (evs1 ++ evs2)%list. split.
      + unfold logged. simpl. by rewrite app_assoc.
      + intros ->. split; [reflexivity|].
        apply (contains_true_has_id self table (id o) (logged w evs1)).
        by rewrite Hfound.
    - apply ret_inv in Hfound as [-> ->]. exists evs1. split; [reflexivity|].
      discriminate. }
  exists o, table. destruct found.
  - apply ret_inv in H as [-> ->]. destruct (Hfd eq_refl) as [-> [z Hz]].
    exists z. split; [exact Ho|]. split; [exact Ht|]. split; [exact Hz|].
    left. split; [exact Hz|]. split; [by rewrite Hsame|]. by split.
  - clear Hfd.
    apply bind_inv_ok in H as (h & w4 & Hh & H). apply get_heap_inv in Hh as [-> ->].
    simpl heap in H.
    apply bind_inv_ok in H as (dat0 & w4 & Hdat & H).
    unfold lift, getitem in Hdat.
    destruct (as_dict X (heap w) d !! "data") as [dat|] eqn:Edat; [|discriminate].
    injection Hdat as <- <-.
    apply bind_inv_ok in H as (i & w5 & Hadd & H).
    apply add_row_inv in Hadd
      as (b & nm & files & m & Hb & Hnm & Hf & Hdec & Hm & -> & ->).
    simpl in Hb, Hf.
    apply bind_inv_ok in H as (u & w6 & Hu & H).
    apply update_obj_inv in Hu as (o5 & Ho5 & ->). simpl in Ho5.
    rewrite Ho in Ho5. injection Ho5 as <-. simpl in H.
    assert (self <> d) as Hne by congruence.
    apply bind_inv_ok in H as (b1 & w7 & Hb1 & H). apply get_backend_inv in Hb1 as [Hb1 ->].
    simpl in Hb1. rewrite lookup_insert_ne in Hb1 by congruence.
    assert (b1 = b) as -> by congruence.
    apply bind_inv_ok in H as (u2 & w8 & Hu2 & H).
    apply update_obj_inv in Hu2 as (o6 & Ho6 & ->). simpl in Ho6.
    rewrite lookup_insert_eq in Ho6. injection Ho6 as <-. simpl in H.
    apply bind_inv_ok in H as (o7 & w9 & Ho7 & H). apply get_obj_inv in Ho7 as [Ho7 ->].
    simpl in Ho7. rewrite lookup_insert_eq in Ho7. injection Ho7 as <-.
    apply bind_inv_ok in H as (b2 & w10 & Hb2 & H). apply get_backend_inv in Hb2 as [Hb2 ->].
    simpl in Hb2. rewrite lookup_insert_ne in Hb2 by congruence.
    rewrite lookup_insert_ne in Hb2 by congruence.
    assert (b2 = b) as -> by congruence.
    apply bind_inv_ok in H as (u3 & w11 & Hsave & H).
    apply np_save_inv in Hsave as (l & Hl & ->). simpl in Hl.
    change (path_str (mkPath (directory b) table))
      with (path_join (directory b) table) in *.
    rewrite lookup_insert_eq in Hl. injection Hl as <-.
    apply bind_inv_ok in H as (o8 & w12 & Ho8 & H). apply get_obj_inv in Ho8 as [Ho8 ->].
    apply ret_inv in H as [-> ->]. simpl in Ho8.
    rewrite lookup_insert_eq in Ho8. injection Ho8 as <-.
    exists (m + 1). split; [exact Ho|]. split; [exact Ht|]. split; [reflexivity|].
    right. exists b, dat, nm, files. simpl.
    split; [exact Hb|]. split; [reflexivity|]. split; [exact Hnm|].
    split; [exact Hf|]. split.
    + split; [exact Hdec|].
      apply py_max_spec in Hm as [_ Hle]. intros e z He Hz.
      enough (z <= m) by lia. apply Hle, list_elem_of_omap. eauto.
    + split; [by rewrite insert_insert_eq | by rewrite insert_insert_eq].
Qed.



(** The name [np.save] writes to keeps the leading token. *)
Lemma npy_name_prefix a r :
  exists r', npy_name (a +:+ String "_"%char r) = a +:+ String "_"%char r'.
Proof.
  unfold npy_name. destruct (PyStr.endswith _ _); [by exists r|].
  exists (r +:+ ".npy"). by rewrite append_assoc.
Qed.

Lemma data_file_token X b i nm :
  PyStr.head_tok (PyStr.split "_"%char (npy_name (data_file_name X b i nm)))
  = PyStr.of_int i.
Proof.
  unfold data_file_name, fmt_id.
  change ("_" +:+ fmt X nm +:+ "." +:+ data_suffix b)
    with (String "_"%char (fmt X nm +:+ "." +:+ data_suffix b)).
  destruct (npy_name_prefix (PyStr.of_int i) (fmt X nm +:+ "." +:+ data_suffix b))
    as [r' ->].
  apply head_tok_prefix. apply (plain_no_char _ (plain_of_int i)).
Qed.



(** X14: after a successful [save_data_obj] the object is bound: it
    holds the identifier returned, and its [backend] compares equal to the
    store. *)
Theorem save_data_obj_binds X self d w r w1 :
  save_data_obj X self d w = (Ok r, w1) ->
  exists o' i,
    heap w1 !! d = Some (CObj o') /\ r = Some i /\ id o' = Some i /\
    (backend_eq X (backend o') self w1).1 = Ok true.
Proof.
  intros H. pose proof H as Hrun.
  apply save_data_obj_inv in H
    as (o & table & i & Ho & Ht & -> &
        [(Hi & Heq & Hfs & Hh)|(b & dat & nm & files & Hb & _ & _ & _ & _ & Hh & _)]).
  - exists o, i. rewrite Hh. split; [exact Ho|]. split; [reflexivity|].
    split; [exact Hi|].
    destruct (reads_only_run _ w (reads_only_backend_eq X (backend o) self))
      as (evs & _ & E).
    destruct (reads_only_backend_eq X (backend o) self (fs w) (heap w))
      as (r0 & evs0 & _ & Hr0).
    destruct w as [f h l], w1 as [f1 h1 l1]. simpl in *. subst f1 h1.
    rewrite Hr0 in Heq. rewrite Hr0. exact Heq.
  - assert (self <> d) as Hne by congruence.
    assert (heap w1 !! self = Some (CBackend b)) as Hb1
      by (rewrite Hh, lookup_insert_ne by congruence; exact Hb).
    eexists _, i. rewrite Hh, lookup_insert_eq. split; [reflexivity|].
    split; [reflexivity|]. split; [reflexivity|]. simpl backend.
    by rewrite (backend_eq_self_run X self b w1 Hb1).
Qed.



Lemma logged_nil w : logged w [] = w.
Proof. destruct w. unfold logged. simpl. by rewrite app_nil_r. Qed.

Lemma logged_logged w evs1 evs2 : logged (logged w evs1) evs2 = logged w (evs1 ++ evs2).
Proof. unfold logged. simpl. by rewrite app_assoc. Qed.

Lemma get_obj_world a w : (get_obj a w).2 = w.
Proof.
  unfold get_obj. rewrite bind_run. simpl.
  destruct (heap w !! a) as [[?|?]|]; reflexivity.
Qed.

(** X17: a data object whose [as_dict] has no [data] entry is never
    written: whatever [save_data_obj] returns or raises, the directory
    tree and the heap are as before and no write was attempted. *)
Theorem save_data_obj_without_data_writes_nothing X self d w :
  as_dict X (heap w) d !! "data" = None ->
  exists evs,
    no_write evs = true /\ (save_data_obj X self d w).2 = logged w evs.
Proof.
  intros Hd. unfold save_data_obj. rewrite bind_run.
  pose proof (get_obj_world d w) as Hw.
  destruct (get_obj d w) as [[o|e] w0]; simpl in Hw; subst w0;
    [|exists []; by rewrite logged_nil].
  destruct (table_name o) as [table|]; [|exists []; by rewrite logged_nil].
  rewrite bind_run.
  destruct (reads_only_run _ w (reads_only_backend_eq X (backend o) self))
    as (evs1 & Hw1 & ->).
  destruct ((backend_eq X (backend o) self w).1) as [same|e]; simpl; [|by exists evs1].
  rewrite bind_run.
  assert (exists evs2 r,
             no_write evs2 = true /\
             (if same then contains self table (id o) else ret false) (logged w evs1)
             = (r, logged w evs2)) as (evs2 & r & Hw2 & ->).
  { destruct same.
    - destruct (reads_only_run _ (logged w evs1)
                  (reads_only_contains self table (id o))) as (evs2 & Hw2 & ->).
      exists (evs1 ++ evs2)%list. eexists. split; [by apply no_write_app|].
      by rewrite logged_logged.
    - exists evs1. eexists. by split. }
  destruct r as [[]|e]; simpl; [by exists evs2 | | by exists evs2].
  rewrite bind_run. simpl. rewrite bind_run. unfold lift, getitem. simpl.
  rewrite Hd. by exists evs2.
Qed.

Lemma save_data_obj_without_data_writes_nothing_witness :
  exists evs,
    no_write evs = true /\
    (save_data_obj Demo.extern_name_only 0 1 Demo.unsaved_data).2
    = logged Demo.unsaved_data evs.
Proof.
  apply (save_data_obj_without_data_writes_nothing
           Demo.extern_name_only 0 1 Demo.unsaved_data).
  vm_compute. reflexivity.
Defined.

Example save_data_obj_without_data_key :
  save_data_obj Demo.extern_name_only 0 1 Demo.unsaved_data
  = (Raise KeyError, Demo.unsaved_data).
Proof. vm_compute. reflexivity. Qed.

(** ** Operations that never write *)

Lemma reads_only_try {A} (m h : M A) e :
  reads_only m -> reads_only h -> reads_only (try_except m e h).
Proof.
  intros Hm Hh f hp. destruct (Hm f hp) as (r & evs & Hw & Hrun).
  destruct r as [a|e'].
  - exists (Ok a), evs. split; [exact Hw|]. intros l. unfold try_except. by rewrite Hrun.
  - destruct (decide (e' = e)) as [->|Hne].
    + destruct (Hh f hp) as (r2 & evs2 & Hw2 & Hrun2).
      exists r2, (evs ++ evs2)%list. split; [by apply no_write_app|].
      intros l. unfold try_except. rewrite Hrun, decide_True by reflexivity.
      by rewrite Hrun2, app_assoc.
    + exists (Raise e'), evs. split; [exact Hw|].
      intros l. unfold try_except. by rewrite Hrun, decide_False.
Qed.

Lemma reads_only_open_serialization self table i :
  reads_only (open_serialization self table i).
Proof. reads_only_tac. Qed.

Lemma reads_only_load_obj_data self obj : reads_only (load_obj_data self obj).
Proof.
  unfold load_obj_data. reads_only_tac.
  apply reads_only_try; reads_only_tac.
Qed.

(** X18: the operations that look things up never write: whether they
    return or raise, [contains], [get_path_to_row], [open_serialization]
    and [load_obj_data] leave the directory tree and the heap as they are
    and log no write, and what they answer does not depend on what was
    logged before. *)
Theorem lookups_only_read self table i obj :
  reads_only (contains self table i) /\
  reads_only (get_path_to_row self table i) /\
  reads_only (open_serialization self table i) /\
  reads_only (load_obj_data self obj).
Proof.
  split; [apply reads_only_contains|].
  split; [apply reads_only_get_path_to_row|].
  split; [apply reads_only_open_serialization | apply reads_only_load_obj_data].
Qed.

(** ** [open] *)

(** X19: [open] of an identifier that has no row in an existing table
    raises [TypeError] (from opening the path [None]); the table is scanned
    once, no object is constructed and nothing is changed. *)
Theorem open_without_row_raises_type_error self b cls i files w :
  heap w !! self = Some (CBackend b) ->
  fs w !! path_join (directory b) (cls_table_name cls) = Some files ->
  List.find (row_matches b i)
    (List.map (fun e => mkPath (path_join (directory b) (cls_table_name cls)) (ename e))
              files) = None ->
  open self cls i w
  = (Raise TypeError, logged w [EvIterdir (mkPath (directory b) (cls_table_name cls))]).
Proof.
  intros Hb Hf Hnone. unfold open, open_serialization.
  apply bind_raise.
  rewrite (bind_ok _ _ _ _ _ (get_path_to_row_run _ _ _ _ _ _ Hb Hf)).
  rewrite Hnone. reflexivity.
Qed.

(** X20: a successful [open] constructs one new object and changes
    nothing else: its address was not in use, the object is what the
    class's [from_dict] makes of the mapping [open_serialization] read,
    with its [backend] set to the store; every other object and the whole
    directory tree are as before, and no write was made. *)
Theorem open_binds_new_object self cls i w a w' :
  open self cls i w = (Ok a, w') ->
  exists dct evs,
    (open_serialization self (cls_table_name cls) i w).1 = Ok dct /\
    heap w !! a = None /\
    heap w' = <[a := CObj (set_backend (Some self) (from_dict cls dct))]> (heap w) /\
    fs w' = fs w /\
    log w' = (log w ++ evs)%list /\ no_write evs = true.
Proof.
  intros H. unfold open in H.
  apply bind_inv_ok in H as (dct & w1 & Hser & H).
  destruct (reads_only_run _ w
              (reads_only_open_serialization self (cls_table_name cls) i))
    as (evs & Hw & Hrun).
  rewrite Hser in Hrun. simpl in Hrun. injection Hrun as ->.
  apply bind_inv_ok in H as (a0 & w2 & Hal & H).
  unfold alloc in Hal. revert Hal. mrun_all. intros [= <- <-].
  apply bind_inv_ok in H as (u & w3 & Hu & H).
  apply update_obj_inv in Hu as (o & Ho & ->). simpl in Ho.
  rewrite lookup_insert_eq in Ho. injection Ho as <-.
  apply ret_inv in H as [-> ->]. simpl.
  exists dct, evs. split; [by rewrite Hser|]. split.
  - apply not_elem_of_dom, is_fresh.
  - split; [by rewrite insert_insert_eq|]. by repeat split.
Qed.

(** ** [load_obj_data] with its payload *)

(** X21: [load_obj_data] returns the array stored beside the row: with
    the row of the object at [p] and a file holding the array [v] at [p]
    with its extension replaced by [data_suffix], it returns [v], after one
    scan of the table and one load. *)
Theorem load_obj_data_returns_payload self obj o b table files p q n a w :
  heap w !! obj = Some (CObj o) ->
  is_Some (data o) ->
  table_name o = Some table ->
  heap w !! self = Some (CBackend b) ->
  fs w !! path_join (directory b) table = Some files ->
  List.find (row_matches b (id o))
    (List.map (fun e => mkPath (path_join (directory b) table) (ename e)) files)
  = Some p ->
  with_suffix p (data_suffix b) = Ok q ->
  find_entry (pname q) files = Some (File n (Npy (VArr a))) ->
  load_obj_data self obj w
  = (Ok (VArr a), logged w [EvIterdir (mkPath (directory b) table); EvNpLoad q]).
Proof.
  intros Ho Hd Ht Hb Hf Hfind Hq Hfile.
  assert (parent q = path_join (directory b) table) as Hpq.
  { apply find_some in Hfind as [Hin _].
    apply in_map_iff in Hin as (e & <- & _).
    unfold with_suffix in Hq. repeat case_match; try discriminate.
    by injection Hq as <-. }
  unfold load_obj_data, hasattr_data. mrun. rewrite Ho.
  rewrite (bool_decide_eq_true_2 _ Hd). simpl.
  rewrite (bind_ok _ _ _ _ _ (get_obj_run _ _ _ Ho)). rewrite Ht.
  rewrite (bind_ok _ _ _ _ _ (get_path_to_row_run _ _ _ _ _ _ Hb Hf)).
  rewrite Hfind. unfold try_except.
  rewrite (bind_ok _ _ _ b (logged w [EvIterdir (mkPath (directory b) table)]));
    [|by apply get_backend_run].
  unfold lift. rewrite bind_run, Hq. unfold np_load. mrun.
  rewrite Hpq, Hf, Hfile. simpl. unfold logged. simpl.
  by rewrite <- app_assoc.
Qed.

(** ** [save], twice and failing *)



(** X23: [save] of an object without data objects either completes or
    leaves every object as it was: if it raises, the heap is unchanged, so
    the object holds no identifier of a row that was never written. *)
Theorem save_failure_leaves_heap X self obj o w e w' :
  heap w !! obj = Some (CObj o) ->
  data_objects o = [] ->
  save X self obj w = (Raise e, w') ->
  heap w' = heap w.
Proof.
  intros Ho Hnil H. rewrite save_split in H.
  rewrite (bind_ok _ _ _ _ _ (get_obj_run _ _ _ Ho)) in H.
  rewrite Hnil in H. simpl in H. rewrite (bind_run (ret tt)) in H. cbn [ret] in H.
  unfold save_own_row in H.
  rewrite (bind_ok _ _ _ _ _ (get_obj_run _ _ _ Ho)) in H.
  rewrite bind_run in H. simpl in H. rewrite bind_run in H.
  pose proof (add_row_heap X self (as_dict X (heap w) obj)
                (match table_name o with Some t => t | None => type_str o end) w) as Hheap.
  destruct (add_row X self (as_dict X (heap w) obj) _ w) as [[i|e1] w2] eqn:Hadd;
    simpl in Hheap; [|by injection H as <- <-].
  exfalso.
  apply add_row_ok in Hadd as (b & nm & l & Hb & _ & _ & _).
  assert (heap w2 !! obj = Some (CObj o)) as Ho2 by (by rewrite Hheap).
  assert (self <> obj) as Hne by congruence.
  rewrite (bind_ok _ _ _ _ _ (update_obj_run _ _ _ _ Ho2)) in H.
  erewrite bind_ok in H;
    [|apply get_backend_run; simpl; rewrite lookup_insert_ne by congruence; exact Hb].
  erewrite bind_ok in H; [|apply update_obj_run; simpl; apply lookup_insert_eq].
  erewrite bind_ok in H; [|apply get_obj_run; simpl; apply lookup_insert_eq].
  discriminate.
Qed.

(** ** Units of cinfdata columns *)

Lemma last_char_app s c t : last_char (s +:+ String c t) = last_char (String c t).
Proof.
  induction s as [|x s IH]; [reflexivity|].
  change (last_char (String x (s +:+ String c t)) = last_char (String c t)).
  rewrite <- IH. simpl. by destruct (s +:+ String c t) eqn:E; [destruct s|].
Qed.

Lemma endswith_last p s :
  PyStr.endswith p s = true -> p <> "" -> last_char s = last_char p.
Proof.
  intros H Hp. induction s as [|x s IH]; simpl in H.
  - destruct p; [congruence | discriminate].
  - destruct (String.eqb p (String x s)) eqn:E.
    + apply String.eqb_eq in E. by rewrite E.
    + rewrite <- (IH H). simpl. destruct s; [|reflexivity].
      simpl in H. destruct p; [congruence | discriminate].
Qed.

(** A name that ends in [-x] does not end in anything that ends in [y]. *)
Lemma endswith_x_not_y p c :
  last_char p = Some "y"%char -> PyStr.endswith p (c +:+ "-x") = false.
Proof.
  intros Hp. apply not_true_is_false. intros H.
  apply endswith_last in H; [|by destruct p].
  change (c +:+ "-x") with (c +:+ String "-"%char "x") in H.
  rewrite last_char_app, Hp in H. discriminate.
Qed.

Lemma endswith_self c p : PyStr.endswith p (c +:+ p) = true.
Proof.
  induction c as [|x c IH].
  - change ("" +:+ p) with p. destruct p; simpl; [reflexivity|].
    by rewrite Ascii.eqb_refl, String.eqb_refl.
  - change (String x c +:+ p) with (String x (c +:+ p)).
    cbn [PyStr.endswith]. rewrite IH. by destruct (String.eqb _ _).
Qed.

Lemma prefix_empty s : String.prefix "" s = true.
Proof. by destruct s. Qed.

(** A prefix without a dash is a prefix of [c-...] exactly when it is one
    of [c]. *)
Lemma startswith_before_dash p c t :
  PyStr.has_char "-"%char p = false -> p <> "" ->
  PyStr.startswith p (c +:+ String "-"%char t) = PyStr.startswith p c.
Proof.
  unfold PyStr.startswith. revert c.
  induction p as [|a p IH]; intros c Hd Hp; [congruence|].
  simpl in Hd. apply orb_false_iff in Hd as [Ha Hd].
  destruct c as [|x c].
  - change ("" +:+ String "-"%char t) with (String "-"%char t). simpl.
    destruct (ascii_dec a "-") as [->|_]; [discriminate | reflexivity].
  - change (String x c +:+ String "-"%char t) with (String x (c +:+ String "-"%char t)).
    simpl. destruct (ascii_dec a x); [|reflexivity].
    destruct p as [|a' p']; [by rewrite !prefix_empty|].
    apply IH; [exact Hd | discriminate].
Qed.

Lemma prefix_first_char a p c :
  String.prefix (String a p) c = true -> exists r, c = String a r.
Proof.
  destruct c as [|x c]; simpl; [discriminate|].
  destruct (ascii_dec a x) as [->|_]; [eauto | discriminate].
Qed.

(** X24: the time series [read_ms] builds for a column is in seconds,
    except for a column whose label starts with [Flow]: its time series
    gets the unit [ml/min], because [get_column_unit] tests the [Flow]
    prefix without looking at the [-x] ending. *)
Theorem tseries_unit_of_column c :
  tseries_unit c = if PyStr.startswith "Flow" c then "ml/min" else "s".
Proof.
  unfold tseries_unit, get_column_unit.
  change (c +:+ "-x") with (c +:+ String "-"%char "x").
  rewrite !(startswith_before_dash _ c "x") by (reflexivity || discriminate).
  change (c +:+ String "-"%char "x") with (c +:+ "-x").
  rewrite (endswith_self c "-x").
  rewrite !endswith_x_not_y by reflexivity.
  rewrite !andb_false_r, andb_true_r. unfold PyStr.startswith.
  destruct (String.prefix "Flow" c) eqn:EF, (String.prefix "M" c) eqn:EM;
    try reflexivity.
  apply prefix_first_char in EF as [r ->].
  apply prefix_first_char in EM as [r' [=]].
Qed.

Example column_units :
  tseries_unit "M2" = "s" /\ vseries_unit "M2" = Some "A"
  /\ tseries_unit "Flow1" = "ml/min" /\ vseries_unit "Flow1" = Some "ml/min"
  /\ vseries_unit "Reactor pressure" = Some "bar"
  /\ vseries_unit "Chamber pressure" = Some "mbar"
  /\ vseries_unit "Main pressure" = Some "A"
  /\ vseries_unit "TC temperature" = Some "celcius"
  /\ vseries_unit "Valve" = None.
Proof. repeat split. Qed.

Lemma endswith_iff p s :
  PyStr.endswith p s = true <-> exists pre, s = pre +:+ p.
Proof.
  split.
  - induction s as [|x s IH]; simpl.
    + destruct p; [by exists "" | discriminate].
    + destruct (String.eqb p (String x s)) eqn:E.
      * apply String.eqb_eq in E. exists "". by rewrite E.
      * intros H. destruct (IH H) as [pre ->]. by exists (String x pre).
  - intros [pre ->]. apply endswith_self.
Qed.

Lemma append_inj_tail a b t : a +:+ t = b +:+ t -> a = b.
Proof.
  revert b. induction a as [|x a IH]; intros b H.
  - destruct b as [|y b]; [reflexivity|].
    apply (f_equal String.length) in H. rewrite !length_app in H.
    simpl in H. lia.
  - destruct b as [|y b].
    + apply (f_equal String.length) in H. rewrite !length_app in H.
      simpl in H. lia.
    + change (String x (a +:+ t) = String y (b +:+ t)) in H.
      injection H as -> H. by rewrite (IH _ H).
Qed.

(** Both names carry the same ending: it can be left out. *)
Lemma endswith_app_tail q c t :
  PyStr.endswith (q +:+ t) (c +:+ t) = PyStr.endswith q c.
Proof.
  apply eq_true_iff_eq. rewrite !endswith_iff. split.
  - intros [pre H]. exists pre. rewrite <- append_assoc in H.
    by apply append_inj_tail in H.
  - intros [pre ->]. exists pre. by rewrite append_assoc.
Qed.

(** X25: the unit [read_ms] gives the values of a column, read off its
    label: [A] for a label that starts with [M], whatever else it says;
    otherwise [bar] or [mbar] for a label that ends in [pressure],
    according to whether it starts with [Reactor]; otherwise [celcius] for
    one that ends in [temperature]; otherwise [ml/min] for one that starts
    with [Flow]; and no unit at all for any other label. *)
Theorem vseries_unit_of_column c :
  vseries_unit c
  = if PyStr.startswith "M" c then Some "A"
    else if PyStr.endswith "pressure" c
         then (if PyStr.startswith "Reactor" c then Some "bar" else Some "mbar")
    else if PyStr.endswith "temperature" c then Some "celcius"
    else if PyStr.startswith "Flow" c then Some "ml/min"
    else None.
Proof.
  unfold vseries_unit, get_column_unit.
  rewrite (endswith_self c "-y").
  change "pressure-y" with ("pressure" +:+ "-y").
  change "temperature-y" with ("temperature" +:+ "-y").
  rewrite !endswith_app_tail.
  change (c +:+ "-y") with (c +:+ String "-"%char "y").
  rewrite !(startswith_before_dash _ c "y") by (reflexivity || discriminate).
  destruct (PyStr.startswith "M" c); [reflexivity|]. simpl.
  destruct (PyStr.endswith "pressure" c), (PyStr.startswith "Reactor" c);
    reflexivity.
Qed.

(** ** The two decoders of a file name *)

Lemma has_char_lstrip c s :
  PyStr.is_space c = false -> PyStr.has_char c (PyStr.lstrip s) = PyStr.has_char c s.
Proof.
  intros Hc. induction s as [|x s IH]; [reflexivity|].
  cbn [PyStr.lstrip]. destruct (PyStr.is_space x) eqn:Ex; [|reflexivity].
  rewrite IH. cbn [PyStr.has_char].
  destruct (Ascii.eqb x c) eqn:E; [|reflexivity].
  apply Ascii.eqb_eq in E. congruence.
Qed.

Lemma has_char_rstrip c s :
  PyStr.is_space c = false -> PyStr.has_char c (PyStr.rstrip s) = PyStr.has_char c s.
Proof.
  intros Hc. induction s as [|x s IH]; [reflexivity|].
  cbn [PyStr.rstrip PyStr.has_char]. rewrite <- IH.
  destruct (PyStr.rstrip s) as [|y r]; [|reflexivity].
  destruct (PyStr.is_space x) eqn:Ex; cbn [PyStr.has_char]; [|reflexivity].
  destruct (Ascii.eqb x c) eqn:E; [|reflexivity].
  apply Ascii.eqb_eq in E. congruence.
Qed.

Lemma digits_no_dot s : forall acc seen z,
  PyStr.digits acc seen s = Some z -> PyStr.has_char "."%char s = false.
Proof.
  induction s as [|x s IH]; intros acc seen z H; [reflexivity|].
  cbn [PyStr.digits] in H. cbn [PyStr.has_char].
  destruct (Ascii.eqb x "."%char) eqn:E.
  { apply Ascii.eqb_eq in E. subst x. discriminate. }
  cbn [orb]. destruct (PyStr.is_digit x); [by eapply IH|].
  destruct (Ascii.eqb x "_"%char); [|discriminate].
  destruct seen; [|discriminate].
  destruct s as [|d s']; [discriminate|].
  destruct (PyStr.is_digit d); [by eapply IH | discriminate].
Qed.

(** What [int] accepts holds no dot. *)
Lemma int_no_dot a z : PyStr.int a = Some z -> PyStr.has_char "."%char a = false.
Proof.
  unfold PyStr.int, PyStr.strip. intros H.
  rewrite <- (has_char_lstrip "."%char a eq_refl).
  rewrite <- (has_char_rstrip "."%char (PyStr.lstrip a) eq_refl).
  destruct (PyStr.rstrip (PyStr.lstrip a)) as [|x r]; [reflexivity|].
  cbn [PyStr.has_char].
  destruct (Ascii.eqb x "."%char) eqn:E.
  { apply Ascii.eqb_eq in E. subst x. discriminate. }
  cbn [orb].
  assert (forall o : option Z, Z.opp <$> o = Some z -> exists z', o = Some z') as Hopp.
  { intros [z'|]; [by exists z' | discriminate]. }
  assert (PyStr.digits 0 false r = Some z ->
          PyStr.has_char "."%char r = false) as H1 by apply digits_no_dot.
  assert (PyStr.digits 0 false (String x r) = Some z ->
          PyStr.has_char "."%char r = false) as H2.
  { intros Hd. apply digits_no_dot in Hd. cbn [PyStr.has_char] in Hd.
    by apply orb_false_iff in Hd as [_ ?]. }
  destruct x as [[] [] [] [] [] [] [] []]; try (exact (H2 H)); try (exact (H1 H)).
  apply Hopp in H as [z' H]. by apply digits_no_dot in H.
Qed.

(** The head of a split holds no separator, and the string is the head
    alone or the head, a separator and a rest. *)
Lemma split_head s :
  PyStr.has_char "_"%char (PyStr.head_tok (PyStr.split "_"%char s)) = false /\
  (s = PyStr.head_tok (PyStr.split "_"%char s) \/
   exists rest, s = PyStr.head_tok (PyStr.split "_"%char s) +:+ String "_"%char rest).
Proof.
  induction s as [|x s [IH1 IH2]]; [split; [reflexivity | by left]|].
  cbn [PyStr.split]. destruct (Ascii.eqb x "_"%char) eqn:E.
  - apply Ascii.eqb_eq in E. subst x. split; [reflexivity|]. right. by exists s.
  - destruct (PyStr.split "_"%char s) as [|t ts] eqn:Es.
    + cbn [PyStr.head_tok hd] in *. cbn [PyStr.has_char]. rewrite E.
      split; [reflexivity|]. destruct IH2 as [->|[rest ->]]; [by left|].
      right. by exists rest.
    + cbn [PyStr.head_tok hd] in *. cbn [PyStr.has_char]. rewrite E, IH1.
      split; [reflexivity|]. destruct IH2 as [Hs|[rest Hs]].
      * left. by rewrite <- Hs.
      * right. exists rest. by rewrite Hs at 1.
Qed.

(** A name whose leading token [int] accepts decodes, as a path, to the
    same integer. *)
Lemma id_from_path_of_name_token d n z :
  PyStr.int (PyStr.head_tok (PyStr.split "_"%char n)) = Some z ->
  id_from_path (mkPath d n) = Some z.
Proof.
  intros H. destruct (split_head n) as [Hu Hs].
  pose proof (int_no_dot _ _ H) as Hd.
  destruct Hs as [Hs|[rest Hs]]; rewrite Hs.
  - by rewrite id_from_path_plain_name.
  - by rewrite id_from_path_prefix.
Qed.

(** X26: the two decoders agree where [get_id_list] decodes: the integer
    it reads off the leading token of a file's name is the identifier
    [id_from_path] reads off the path of that file, so every identifier
    listed can be asked for with [get_path_to_row]. *)
Theorem id_from_path_agrees_with_get_id_list d e z :
  entry_id e = Some z ->
  id_from_path (mkPath d (ename e)) = Some z.
Proof.
  unfold entry_id. destruct (is_dir e); [discriminate|].
  apply id_from_path_of_name_token.
Qed.

(** The converse fails: a name without underscore decodes as a path, by
    its stem, and stops [get_id_list], which reads the whole name. *)
Example id_from_path_decodes_more :
  id_from_path (mkPath "root/series" "5.ix") = Some 5 /\
  entry_id (Demo.row "5.ix") = None.
Proof. split; vm_compute; reflexivity. Qed.

(** ** Rows that cannot be found again *)

Lemma find_none_Forall {A} (P : A -> bool) (l : list A) :
  Forall (fun x => P x = false) l -> List.find P l = None.
Proof.
  induction 1 as [|x l Hx _ IH]; [reflexivity|]. simpl. by rewrite Hx.
Qed.

Lemma put_file_Forall (P : Entry -> Prop) n c l :
  P (File n c) -> Forall P l -> Forall P (put_file n c l).
Proof.
  intros Hn. induction 1 as [|x l Hx Hl IH]; simpl; [by constructor|].
  destruct (String.eqb (ename x) n); by constructor.
Qed.

Lemma Forall_map_path (P : Path -> bool) (dir : string) (l : list Entry) :
  Forall (fun e => P (mkPath dir (ename e)) = false) l ->
  Forall (fun p => P p = false) (List.map (fun e => mkPath dir (ename e)) l).
Proof. induction 1; simpl; by constructor. Qed.

(** The regular files that were counted for a new identifier are no rows
    of that identifier. *)
Lemma old_rows_do_not_match b dir i files :
  all_decodable files = true ->
  forallb (fun e => negb (is_dir e)) files = true ->
  (forall e z, e ∈ files -> entry_id e = Some z -> z < i) ->
  Forall (fun e => row_matches b (Some i) (mkPath dir (ename e)) = false) files.
Proof.
  intros Hdec Hreg Hlt. apply Forall_forall. intros e He.
  pose proof (proj1 (list_elem_of_In _ _) He) as Hin.
  unfold all_decodable in Hdec. rewrite forallb_forall in Hdec, Hreg.
  pose proof (Hdec _ Hin) as Hd.
  pose proof (Hreg _ Hin) as Hr.
  apply negb_true_iff in Hr. rewrite Hr in Hd. simpl in Hd.
  apply bool_decide_eq_true in Hd as [z Hz].
  assert (entry_id e = Some z) as Hid by (unfold entry_id; by rewrite Hr).
  pose proof (Hlt e z He Hid) as Hzi.
  unfold row_matches.
  rewrite (id_from_path_of_name_token dir (ename e) z Hz).
  rewrite bool_decide_eq_false_2; [reflexivity|]. intros [= E]. lia.
Qed.

(** The file [add_row] writes is no row of any identifier. *)
Lemma row_file_does_not_match X b dir nm i :
  row_matches b (Some i) (mkPath dir (row_file_name X b nm)) = false.
Proof.
  unfold row_matches, row_file_name.
  change ("_" +:+ fmt X nm +:+ "." +:+ suffix b)
    with (String "_"%char (fmt X nm +:+ "." +:+ suffix b)).
  rewrite id_from_path_prefix by reflexivity.
  reflexivity.
Qed.

Lemma substring_drop a n s :
  String.substring (String.length a) n (a +:+ s) = String.substring 0 n s.
Proof. induction a as [|x a IH]; [reflexivity|]. simpl. exact IH. Qed.

Lemma suffix_npy pre : pre <> "" -> PyPath.suffix (pre +:+ ".npy") = ".npy".
Proof.
  intros Hp. unfold PyPath.suffix, PyPath.suffix_dot.
  change (pre +:+ ".npy") with (pre +:+ String "."%char "npy").
  rewrite (rfind_last "."%char pre "npy" eq_refl), length_app.
  assert ((0 <? String.length pre)%nat
          && (String.length pre <? String.length pre + String.length ".npy" - 1)%nat
          = true) as ->.
  { apply andb_true_iff. split; apply Nat.ltb_lt.
    - destruct pre; [congruence | simpl; lia].
    - simpl. lia. }
  replace (String.length pre + String.length (String "."%char "npy") - String.length pre)%nat
    with 4%nat by (simpl; lia).
  by rewrite substring_drop.
Qed.

(** The extension of the file [np.save] writes is [.npy]. *)
Lemma data_file_suffix X b i nm :
  PyPath.suffix (npy_name (data_file_name X b i nm)) = ".npy".
Proof.
  assert (exists pre, npy_name (data_file_name X b i nm) = pre +:+ ".npy") as [pre E].
  { unfold npy_name. destruct (PyStr.endswith _ _) eqn:En.
    - by apply endswith_iff in En.
    - by eexists. }
  pose proof (data_file_token X b i nm) as Ht. rewrite E in *.
  apply suffix_npy. intros ->.
  change (PyStr.head_tok (PyStr.split "_"%char ("" +:+ ".npy"))) with ".npy" in Ht.
  pose proof (plain_no_char _ (plain_of_int i)) as [_ Hd].
  rewrite <- Ht in Hd. discriminate.
Qed.

(** The payload file is a row only for a store whose [suffix] is
    [.npy]. *)
Lemma payload_does_not_match X b dir i j nm :
  suffix b <> ".npy" ->
  row_matches b j (mkPath dir (npy_name (data_file_name X b i nm))) = false.
Proof.
  intros Hs. unfold row_matches. simpl pname. rewrite data_file_suffix.
  destruct (String.eqb ".npy" (suffix b)) eqn:E.
  - apply String.eqb_eq in E. congruence.
  - apply andb_false_r.
Qed.

(** X27: data written by [save_data_obj] is not read back by
    [load_obj_data]. In a table of regular files, on a store whose
    [suffix] is not [.npy], the object that [save_data_obj] has just given
    a row makes [load_obj_data] raise [AttributeError]: the metadata file
    is named after the built-in [id] and decodes to no identifier, the
    payload file has the wrong extension, so [get_path_to_row] returns
    [None]. *)
Theorem save_data_obj_then_load_obj_data_raises X self d o b table files w r w1 :
  heap w !! d = Some (CObj o) ->
  is_Some (data o) ->
  table_name o = Some table ->
  heap w !! self = Some (CBackend b) ->
  fs w !! path_join (directory b) table = Some files ->
  forallb (fun e => negb (is_dir e)) files = true ->
  suffix b <> ".npy" ->
  save_data_obj X self d w = (Ok r, w1) ->
  fs w1 <> fs w ->
  (load_obj_data self d w1).1 = Raise AttributeError.
Proof.
  intros Ho Hdata Ht Hb Hf Hreg Hsfx H Hchg.
  apply save_data_obj_inv in H
    as (o0 & table0 & i & Ho0 & Ht0 & -> &
        [(_ & _ & Hfs & _)
        |(b0 & dat & nm & files0 & Hb0 & _ & _ & Hf0 & [Hdec Hlt] & Hh & Hfs)]);
    [congruence|].
  assert (o0 = o) as -> by congruence.
  assert (table0 = table) as -> by congruence.
  assert (b0 = b) as -> by congruence.
  assert (files0 = files) as -> by congruence.
  assert (self <> d) as Hne by congruence.
  erewrite load_obj_data_no_row; [reflexivity | | | | | |].
  - rewrite Hh. apply lookup_insert_eq.
  - exact Hdata.
  - exact Ht.
  - rewrite Hh, lookup_insert_ne by congruence. exact Hb.
  - rewrite Hfs. apply lookup_insert_eq.
  - apply find_none_Forall, Forall_map_path.
    cbn [id set_backend set_id].
    apply put_file_Forall; [by apply payload_does_not_match|].
    apply put_file_Forall; [apply row_file_does_not_match|].
    by apply old_rows_do_not_match.
Qed.

(** X28: an object written by [save] is not found by [open]. In a table
    of regular files, [open] with the identifier that [save] has just
    returned for an object without data objects raises [TypeError]: the
    file [save] wrote is named after the built-in [id], and no other file
    of the table decodes to the new identifier. *)
Theorem save_then_open_raises X self obj o b cls files w r w' :
  heap w !! obj = Some (CObj o) ->
  data_objects o = [] ->
  table_name o = Some (cls_table_name cls) ->
  heap w !! self = Some (CBackend b) ->
  fs w !! path_join (directory b) (cls_table_name cls) = Some files ->
  forallb (fun e => negb (is_dir e)) files = true ->
  save X self obj w = (Ok r, w') ->
  (open self cls r w').1 = Raise TypeError.
Proof.
  intros Ho Hnil Ht Hb Hf Hreg H.
  apply save_ok_split in H as (o0 & w1 & Ho0 & Hsio & H).
  assert (o0 = o) as -> by congruence. rewrite Hnil in Hsio.
  inversion Hsio; subst. clear Hsio.
  apply save_own_row_ok in H as (o1 & b1 & i1 & w2 & Ho1 & Hb1 & Hadd & -> & ->).
  assert (o1 = o) as -> by congruence.
  assert (b1 = b) as -> by congruence.
  assert (self <> obj) as Hne by congruence.
  rewrite Ht in Hadd.
  apply add_row_inv in Hadd
    as (b2 & nm & files2 & m & Hb2 & Hnm & Hf2 & Hdec & Hm & -> & ->).
  assert (b2 = b) as -> by congruence.
  assert (files2 = files) as -> by congruence.
  cbn [fs log].
  match goal with
  | |- (open _ _ _ (mkWorld (<[_ := ?l]> _) _ _)).1 = _ => set (L := l)
  end.
  match goal with |- (open _ _ _ ?W).1 = _ => set (W' := W) end.
  assert (heap W' !! self = Some (CBackend b)) as Hb'
    by (simpl; rewrite lookup_insert_ne by congruence; exact Hb).
  assert (fs W' !! path_join (directory b) (cls_table_name cls) = Some L)
    as Hf' by (simpl; apply lookup_insert_eq).
  unfold open, open_serialization.
  erewrite bind_raise; [reflexivity|].
  rewrite (bind_ok _ _ _ _ _ (get_path_to_row_run _ _ _ _ _ _ Hb' Hf')).
  rewrite find_none_Forall; [reflexivity|].
  apply Forall_map_path. subst L.
  apply put_file_Forall; [apply row_file_does_not_match|].
  apply old_rows_do_not_match; [exact Hdec | exact Hreg |].
  apply py_max_spec in Hm as [_ Hle]. intros e z He Hz.
  enough (z <= m) by lia. apply Hle, list_elem_of_omap. eauto.
Qed.

(** ** The grouping column of [read] *)

(** X29: without a grouping column of its own, [read] groups by comment
    exactly when a comment and no timestamp is given, and by time with the
    timestamp as token in every other case; it warns that both a comment
    and a timestamp are given exactly when both or neither is, so that
    with neither it warns of both and goes on with an empty token. *)
Theorem read_grouping_without_group group timestamp comment tok :
  truthy group = false ->
  let by_comment := truthy comment && negb (truthy timestamp) in
  read_grouping group timestamp comment tok
  = mkGrouping (Some (if by_comment then "comment" else "time"))
               (Some (if by_comment then comment else timestamp))
               (Bool.eqb (truthy timestamp) (truthy comment)).
Proof.
  intros Hg. unfold read_grouping. rewrite Hg. cbn [negb].
  destruct (truthy timestamp), (truthy comment); reflexivity.
Qed.

Example read_grouping_neither_given :
  read_grouping None None None None = mkGrouping (Some "time") (Some None) true.
Proof. reflexivity. Qed.

(** ** The properties above at work on the small store *)

Lemma add_row_returns_fresh_id_witness :
  exists b files,
    heap Demo.one_row_nodot !! 0%nat = Some (CBackend b) /\
    fs Demo.one_row_nodot !! path_join (directory b) "series" = Some files /\
    (forall e z, e ∈ files -> entry_id e = Some z -> z < 1) /\
    (exists e, e ∈ files /\ entry_id e = Some (1 - 1)).
Proof.
  apply (add_row_returns_fresh_id Demo.extern 0 Demo.beta_dict "series"
           Demo.one_row_nodot 1 Demo.one_row_added).
  vm_compute. reflexivity.
Defined.



Lemma add_row_without_name_witness :
  add_row Demo.extern 0 ∅ "series" Demo.one_row
  = (Raise KeyError,
     logged Demo.one_row [EvExists (mkPath (directory Demo.store) "series");
                          EvIterdir (mkPath (directory Demo.store) "series")]).
Proof.
  apply (add_row_without_name Demo.extern 0 Demo.store "series"
           [Demo.row "0_alpha.ix"] 0 ∅ Demo.one_row);
    vm_compute; reflexivity.
Defined.


Lemma lookups_without_directory_raise_witness :
  exists e,
    (e = FileNotFoundError \/ e = NotADirectoryError) /\
    contains 0 "series" (Some 3) Demo.no_table
    = (Raise e, logged Demo.no_table [EvIterdir (mkPath (directory Demo.store) "series")]) /\
    get_path_to_row 0 "series" (Some 3) Demo.no_table
    = (Raise e, logged Demo.no_table [EvIterdir (mkPath (directory Demo.store) "series")]).
Proof.
  apply (lookups_without_directory_raise 0 Demo.store "series" (Some 3) Demo.no_table);
    vm_compute; reflexivity.
Defined.

Lemma get_path_to_row_first_match_witness :
  exists pre e post,
    [Demo.row "3_x.ix"; File "3_x.npy" (Npy (VArr [7]))] = (pre ++ e :: post)%list /\
    mkPath "root/series" "3_x.ix"
    = mkPath (path_join (directory Demo.store) "series") (ename e) /\
    id_from_path (mkPath "root/series" "3_x.ix") = Some 3 /\
    PyPath.suffix (ename e) = suffix Demo.store /\
    Forall (fun e' => row_matches Demo.store (Some 3)
                        (mkPath (path_join (directory Demo.store) "series") (ename e'))
                      = false) pre.
Proof.
  apply (get_path_to_row_first_match 0 Demo.store "series" _ (Some 3)
           (mkPath "root/series" "3_x.ix") Demo.bound);
    vm_compute; reflexivity.
Defined.

Lemma backend_eq_without_access_witness :
  backend_eq Demo.extern (Some 0%nat) 0 Demo.bound = (Ok true, Demo.bound) /\
  backend_eq Demo.extern None 0 Demo.bound = (Ok false, Demo.bound) /\
  (forall a o, heap Demo.bound !! a = Some (CObj o) ->
               backend_eq Demo.extern (Some a) 0 Demo.bound = (Ok false, Demo.bound)).
Proof.
  apply (backend_eq_without_access Demo.extern 0 Demo.store Demo.bound).
  vm_compute. reflexivity.
Defined.


Lemma backend_eq_same_directory_witness :
  (backend_eq Demo.extern (Some 2%nat) 0 Demo.two_stores).1 = Ok true.
Proof.
  apply (backend_eq_same_directory Demo.extern 2 0 Demo.store_nodot Demo.store
           [Dir "series"] Demo.two_stores);
    [vm_compute; reflexivity | vm_compute; reflexivity | discriminate
    | reflexivity | vm_compute; reflexivity].
Defined.

Lemma save_data_obj_binds_witness :
  exists o' i,
    heap Demo.data_saved !! 1%nat = Some (CObj o') /\ Some 1 = Some i /\ id o' = Some i /\
    (backend_eq Demo.extern (backend o') 0 Demo.data_saved).1 = Ok true.
Proof.
  apply (save_data_obj_binds Demo.extern 0 1 Demo.unsaved_data (Some 1) Demo.data_saved).
  vm_compute. reflexivity.
Defined.



Lemma open_without_row_raises_type_error_witness :
  open 0 Demo.series_cls (Some 4) Demo.stored
  = (Raise TypeError,
     logged Demo.stored
       [EvIterdir (mkPath (directory Demo.store) (cls_table_name Demo.series_cls))]).
Proof.
  apply (open_without_row_raises_type_error 0 Demo.store Demo.series_cls (Some 4)
           [File "3_x.ix" (Json {[ "name" := VStr "x"; "id" := VInt 3 ]});
            File "3_x.npy" (Npy (VArr [7]))] Demo.stored);
    vm_compute; reflexivity.
Defined.

Lemma open_binds_new_object_witness :
  exists dct evs,
    (open_serialization 0 (cls_table_name Demo.series_cls) (Some 3) Demo.stored).1 = Ok dct /\
    heap Demo.stored !! 1%nat = None /\
    heap Demo.opened
    = <[1%nat := CObj (set_backend (Some 0%nat) (from_dict Demo.series_cls dct))]>
        (heap Demo.stored) /\
    fs Demo.opened = fs Demo.stored /\
    log Demo.opened = (log Demo.stored ++ evs)%list /\ no_write evs = true.
Proof.
  apply (open_binds_new_object 0 Demo.series_cls (Some 3) Demo.stored 1 Demo.opened).
  vm_compute. reflexivity.
Defined.

Lemma load_obj_data_returns_payload_witness :
  load_obj_data 0 1 Demo.bound
  = (Ok (VArr [7]),
     logged Demo.bound [EvIterdir (mkPath (directory Demo.store) "series");
                        EvNpLoad (mkPath "root/series" "3_x.npy")]).
Proof.
  apply (load_obj_data_returns_payload 0 1 Demo.bound_obj Demo.store "series"
           [Demo.row "3_x.ix"; File "3_x.npy" (Npy (VArr [7]))]
           (mkPath "root/series" "3_x.ix") (mkPath "root/series" "3_x.npy")
           "3_x.npy" [7] Demo.bound);
    try (vm_compute; reflexivity).
  vm_compute. eauto.
Defined.


Lemma save_failure_leaves_heap_witness :
  heap Demo.save_failed = heap Demo.unsaved_data.
Proof.
  apply (save_failure_leaves_heap Demo.extern 0 1
           (Demo.obj "beta" "series" (Some (VArr [1; 2])))
           Demo.unsaved_data TypeError Demo.save_failed);
    vm_compute; reflexivity.
Defined.

Lemma id_from_path_agrees_with_get_id_list_witness :
  id_from_path (mkPath "root/series" (ename (Demo.row "0_alpha.ix"))) = Some 0.
Proof.
  apply (id_from_path_agrees_with_get_id_list "root/series" (Demo.row "0_alpha.ix") 0).
  vm_compute. reflexivity.
Defined.

Lemma save_data_obj_then_load_obj_data_raises_witness :
  (load_obj_data 0 1 Demo.data_saved).1 = Raise AttributeError.
Proof.
  apply (save_data_obj_then_load_obj_data_raises Demo.extern 0 1
           (Demo.obj "beta" "series" (Some (VArr [1; 2]))) Demo.store "series"
           [Demo.row "0_alpha.ix"] Demo.unsaved_data (Some 1) Demo.data_saved).
  - vm_compute. reflexivity.
  - vm_compute. eauto.
  - reflexivity.
  - vm_compute. reflexivity.
  - vm_compute. reflexivity.
  - reflexivity.
  - discriminate.
  - vm_compute. reflexivity.
  - intros E. apply (f_equal (fun f => length <$> f !! "root/series")) in E.
    vm_compute in E. discriminate.
Defined.

Lemma save_then_open_raises_witness :
  (open 0 Demo.series_cls (Some 1) Demo.one_row_saved).1 = Raise TypeError.
Proof.
  apply (save_then_open_raises Demo.extern 0 1 (Demo.obj "beta" "series" None)
           Demo.store Demo.series_cls [Demo.row "0_alpha.ix"] Demo.one_row
           (Some 1) Demo.one_row_saved);
    vm_compute; reflexivity.
Defined.

Lemma read_grouping_without_group_witness :
  read_grouping None (Some "2021-03-01 10:00:00") (Some "run 3") None
  = mkGrouping (Some "time") (Some (Some "2021-03-01 10:00:00")) true.
Proof.
  apply (read_grouping_without_group None (Some "2021-03-01 10:00:00")
           (Some "run 3") None).
  reflexivity.
Defined.
